(** * clientvault: the client registry of [app.py]

    A shallow embedding of the Flask application in [src/app.py]: the two
    SQLAlchemy models, the five JSON routes and the calls they make to the
    relational store and to S3, followed by the properties the
    specification states about them.

    Conventions of the embedding.
    - A request body is the value [request.get_json()] returns.  Its
      scalars are strings or [null], as every field of the API is
      documented; numbers and booleans are not part of the request
      language.  A JSON object is a Python dict used as a map, hence a
      [gmap]; [d.get(k)] is [d !! k] and [d.get(k, v)] is
      [default v (d !! k)].
    - A string is a sequence of characters, one [ascii] each.
    - A dict literal with fixed keys that a route hands to [jsonify] is a
      record with those keys.
    - The relational store is MySQL in its default (strict) mode with a
      binary collation: a value longer than its column, a [NULL] in a
      [nullable=False] column or a second row with the same [client_id]
      makes the statement fail, and a failed request leaves the last
      committed state (the session is rolled back when the request ends).
    - A value bound to a statement reaches MySQL as the driver writes
      it: a one-element list is read as its element.
    - The two routes under ['/api/clients/<client_id>'] see only the
      identifiers their rule matches: non-empty, without [/].  What the
      router answers for any other path is a parameter.
    - The outside world answers through [env]: the clock, the random
      token of [uuid.uuid4()], and the outcome of each S3 call.  A boto3
      call returns, raises [ClientError], or raises some other
      exception. *)

From stdpp Require Import gmap strings list sorting.

Local Open Scope Z_scope.

(** ** Python values *)

#[warnings="-register-all"]
Inductive json :=
  | JNull
  | JStr (s : string)
  | JArr (l : list json)
  | JObj (m : gmap string json).

(** Exceptions that leave a route unhandled (Flask answers 500). *)
Inductive exn :=
  | AttributeError                (* [.get] on something that is not a dict *)
  | TypeError                     (* [for pic in None]; a dict as SQL parameter *)
  | ProgrammingError              (* MySQL 1064: an empty list as SQL parameter *)
  | OperationalError              (* MySQL 1241: several values where one is read *)
  | IntegrityError                (* NOT NULL or UNIQUE violated *)
  | DataError                     (* value longer than its column *)
  | BotoCoreError (msg : string). (* a boto3 failure that is not a ClientError *)

Inductive result (A : Type) :=
  | Ok (a : A)
  | Raise (e : exn).
Arguments Ok {A} a.
Arguments Raise {A} e.

#[global] Instance result_ret : MRet result := λ A a, Ok a.
#[global] Instance result_bind : MBind result := λ A B f m,
  match m with Ok a => f a | Raise e => Raise e end.
#[global] Instance result_fmap : FMap result := λ A B f m,
  match m with Ok a => Ok (f a) | Raise e => Raise e end.

(** [v.get(k)] for an arbitrary value [v]. *)
Definition py_get (v : json) (k : string) : result (option json) :=
  match v with
  | JObj d => Ok (d !! k)
  | _ => Raise AttributeError
  end.

(** The elements [for x in v] visits.  A string yields its characters and
    a dict its keys (in an order the model does not fix). *)
Fixpoint chars (s : string) : list json :=
  match s with
  | EmptyString => []
  | String c s' => JStr (String c EmptyString) :: chars s'
  end.

Definition py_iter (v : json) : result (list json) :=
  match v with
  | JArr l => Ok l
  | JStr s => Ok (chars s)
  | JObj d => Ok (JStr <$> (map_to_list d).*1)
  | JNull => Raise TypeError
  end.

(** ** Storage schema (lines 35-94) *)

Module Client.
(** [class Client(db.Model)], one row of table [clients]. *)
Record row := {
  id         : Z;
  client_id  : string;
  first_name : string;
  last_name  : string;
  email      : string;
  phone      : option string;
  dob        : option string;
  street     : option string;
  city       : option string;
  state      : option string;
  zip_code   : option string;
  country    : option string;
  notes      : option string;
  created_at : Z;
}.

(** The object [Client(...)] builds: every attribute as passed. *)
Record obj := {
  o_client_id  : option json;
  o_first_name : option json;
  o_last_name  : option json;
  o_email      : option json;
  o_phone      : option json;
  o_dob        : option json;
  o_street     : option json;
  o_city       : option json;
  o_state      : option json;
  o_zip_code   : option json;
  o_country    : option json;
  o_notes      : option json;
}.
End Client.

Module ClientPicture.
(** [class ClientPicture(db.Model)], one row of [client_pictures]. *)
Record row := {
  id          : Z;
  client_id   : Z;
  s3_key      : string;
  file_name   : option string;
  file_type   : option string;
  uploaded_at : Z;
}.

Record obj := {
  o_client_id : Z;
  o_s3_key    : option json;
  o_file_name : option json;
  o_file_type : option json;
}.
End ClientPicture.

Record database := {
  clients             : list Client.row;
  client_pictures     : list ClientPicture.row;
  clients_next_id     : Z;
  pictures_next_id    : Z;
}.

Definition empty_db : database :=
  {| clients := []; client_pictures := [];
     clients_next_id := 1; pictures_next_id := 1 |}.

(** *** Columns *)

(** What the driver of [mysql+pymysql] (line 18) writes into the
    statement for a Python value, and what MySQL reads there.  [None] is
    [NULL] and a string is its quoted text.  A list is written as its
    items between parentheses, so [['C123']] arrives as [('C123')], which
    MySQL reads as the value inside; the driver refuses a dict, at any
    depth, before anything is sent. *)
Fixpoint has_dict (v : json) : bool :=
  match v with
  | JObj _ => true
  | JArr l => existsb has_dict l
  | _ => false
  end.

(** [()] does not parse. *)
Fixpoint has_empty_list (v : json) : bool :=
  match v with
  | JArr [] => true
  | JArr l => existsb has_empty_list l
  | _ => false
  end.

(** The value of a parenthesised expression; [(a, b)] is a row of two
    columns, never one value. *)
Fixpoint operand (v : json) : result (option string) :=
  match v with
  | JNull => Ok None
  | JStr s => Ok (Some s)
  | JArr [v'] => operand v'
  | _ => Raise OperationalError
  end.

Definition bind_param (v : option json) : result (option string) :=
  match v with
  | None => Ok None
  | Some v =>
    if has_dict v then Raise TypeError
    else if has_empty_list v then Raise ProgrammingError
    else operand v
  end.

(** [db.String(n)]: at most [n] characters. *)
Definition String_ (n : nat) (v : option string) : result (option string) :=
  match v with
  | Some s => if decide (String.length s ≤ n)%nat then Ok v else Raise DataError
  | None => Ok None
  end.

(** [nullable=False]. *)
Definition not_null (v : option string) : result string :=
  match v with
  | Some s => Ok s
  | None => Raise IntegrityError
  end.

(** *** Queries *)

(** [Client.query.filter_by(client_id=v).first()].  Comparing the
    [nullable=False] column with [None] selects nothing. *)
Definition filter_by_client_id (v : option json) (d : database)
  : result (option Client.row) :=
  p ← bind_param v;
  match p with
  | Some s => Ok (snd <$> list_find (λ c, Client.client_id c = s) (clients d))
  | None => Ok None
  end.

(** [client.pictures]: the rows whose foreign key is [client.id]. *)
Definition pictures_of (c : Client.row) (d : database) : list ClientPicture.row :=
  filter (λ p, ClientPicture.client_id p = Client.id c) (client_pictures d).

(** *** Statements *)

(** INSERT of a flushed [Client]; returns the row with its generated
    [id] and [created_at = datetime.utcnow()]. *)
Definition insert_client (utcnow : Z) (o : Client.obj) (d : database)
  : result (Client.row * database) :=
  p_client_id  ← bind_param (Client.o_client_id o);
  p_first_name ← bind_param (Client.o_first_name o);
  p_last_name  ← bind_param (Client.o_last_name o);
  p_email      ← bind_param (Client.o_email o);
  p_phone      ← bind_param (Client.o_phone o);
  p_dob        ← bind_param (Client.o_dob o);
  p_street     ← bind_param (Client.o_street o);
  p_city       ← bind_param (Client.o_city o);
  p_state      ← bind_param (Client.o_state o);
  p_zip_code   ← bind_param (Client.o_zip_code o);
  p_country    ← bind_param (Client.o_country o);
  p_notes      ← bind_param (Client.o_notes o);
  c_client_id  ← String_ 50 p_client_id ≫= not_null;
  c_first_name ← String_ 100 p_first_name ≫= not_null;
  c_last_name  ← String_ 100 p_last_name ≫= not_null;
  c_email      ← String_ 150 p_email ≫= not_null;
  c_phone      ← String_ 30 p_phone;
  c_dob        ← String_ 20 p_dob;
  c_street     ← String_ 255 p_street;
  c_city       ← String_ 100 p_city;
  c_state      ← String_ 100 p_state;
  c_zip_code   ← String_ 20 p_zip_code;
  c_country    ← String_ 100 p_country;
  if decide (c_client_id ∈ Client.client_id <$> clients d) then
    Raise IntegrityError
  else
    let c := {| Client.id := clients_next_id d;
                Client.client_id := c_client_id;
                Client.first_name := c_first_name;
                Client.last_name := c_last_name;
                Client.email := c_email;
                Client.phone := c_phone;
                Client.dob := c_dob;
                Client.street := c_street;
                Client.city := c_city;
                Client.state := c_state;
                Client.zip_code := c_zip_code;
                Client.country := c_country;
                Client.notes := p_notes;
                Client.created_at := utcnow |} in
    Ok (c, {| clients := clients d ++ [c];
              client_pictures := client_pictures d;
              clients_next_id := clients_next_id d + 1;
              pictures_next_id := pictures_next_id d |}).

(** INSERT of one [ClientPicture]. *)
Definition insert_picture (utcnow : Z) (o : ClientPicture.obj) (d : database)
  : result database :=
  p_s3_key    ← bind_param (ClientPicture.o_s3_key o);
  p_file_name ← bind_param (ClientPicture.o_file_name o);
  p_file_type ← bind_param (ClientPicture.o_file_type o);
  c_s3_key    ← String_ 500 p_s3_key ≫= not_null;
  c_file_name ← String_ 255 p_file_name;
  c_file_type ← String_ 100 p_file_type;
  if decide (ClientPicture.o_client_id o ∈ (Client.id <$> clients d)) then
    let p := {| ClientPicture.id := pictures_next_id d;
                ClientPicture.client_id := ClientPicture.o_client_id o;
                ClientPicture.s3_key := c_s3_key;
                ClientPicture.file_name := c_file_name;
                ClientPicture.file_type := c_file_type;
                ClientPicture.uploaded_at := utcnow |} in
    Ok {| clients := clients d;
          client_pictures := client_pictures d ++ [p];
          clients_next_id := clients_next_id d;
          pictures_next_id := pictures_next_id d + 1 |}
  else Raise IntegrityError.

(** The flush at [commit]: the pending pictures, in the order they were
    added to the session. *)
Fixpoint insert_pictures (utcnow : Z) (os : list ClientPicture.obj) (d : database)
  : result database :=
  match os with
  | [] => Ok d
  | o :: os' => d' ← insert_picture utcnow o d; insert_pictures utcnow os' d'
  end.

(** [db.session.delete(client)] with [cascade='all, delete-orphan']: the
    loaded pictures are deleted by primary key, then the client. *)
Definition delete_cascade (c : Client.row) (d : database) : database :=
  let owned := ClientPicture.id <$> pictures_of c d in
  {| clients := filter (λ c', Client.id c' ≠ Client.id c) (clients d);
     client_pictures :=
       filter (λ p, ClientPicture.id p ∉ owned) (client_pictures d);
     clients_next_id := clients_next_id d;
     pictures_next_id := pictures_next_id d |}.

(** ** The object store and the rest of the outside world *)

(** The two boto3 calls of the application, with their arguments. *)
Inductive s3_call :=
  | generate_presigned_url (ClientMethod : string) (Bucket : option string)
      (Key : string) (ContentType : json) (ExpiresIn : Z)
  | delete_object (Bucket : option string) (Key : string).

Inductive s3_result :=
  | Returned (v : string)
  | ClientError (msg : string)   (* raised; [msg] is [str(e)] *)
  | OtherError (msg : string).   (* raised, and not a [ClientError] *)

(** What the outside answers while one request is handled. *)
Record env := {
  utcnow    : Z;
  uuid4     : string;
  s3_client : s3_call → s3_result;
}.

(** The committed rows and the S3 calls made so far. *)
Record world := {
  db       : database;
  s3_calls : list s3_call;
}.

Definition init : world := {| db := empty_db; s3_calls := [] |}.

(** ** Responses *)

Module PictureDict.
(** The dict of [ClientPicture.to_dict]. *)
Record t := {
  id        : Z;
  s3_key    : string;
  file_name : option string;
  file_type : option string;
  url       : string;
}.
End PictureDict.

Module ClientDict.
(** The dict of [Client.to_dict]. *)
Record t := {
  id         : Z;
  client_id  : string;
  first_name : string;
  last_name  : string;
  email      : string;
  phone      : option string;
  dob        : option string;
  address    : json;
  notes      : option string;
  pictures   : list PictureDict.t;
  created_at : string;
}.
End ClientDict.

Inductive body :=
  | UploadUrl (uploadUrl key : string)
  | Error (error : string)
  | Registered (message clientId : string) (id : Z)
  | ClientList (cs : list ClientDict.t)
  | ClientOne (c : ClientDict.t)
  | Message (message : string).

Inductive response :=
  | Json (status : Z) (b : body)   (* [jsonify(...)], status *)
  | Abort (status : Z)             (* [first_or_404] found nothing, or the
                                      router answered by itself *)
  | Unhandled (e : exn).           (* an exception left the route *)

Definition status_code (r : response) : Z :=
  match r with
  | Json status _ => status
  | Abort status => status
  | Unhandled _ => 500
  end.

(** A nullable string column as a JSON value. *)
Definition nullable (v : option string) : json :=
  match v with
  | Some s => JStr s
  | None => JNull
  end.

Inductive request :=
  | POST_get_upload_url (data : json)
  | POST_clients (data : json)
  | GET_clients
  | GET_client (client_id : string)
  | DELETE_client (client_id : string).

(** ** URL rules

    [<client_id>] in the rule ['/api/clients/<client_id>'] (lines 184 and
    191) is the default converter of the router: it matches a non-empty
    text without [/].  A path the rule does not match reaches no view;
    the router answers by itself (see [no_rule] below). *)
Fixpoint no_slash (s : string) : bool :=
  match s with
  | EmptyString => true
  | String c s' => negb (String.eqb (String c EmptyString) "/") && no_slash s'
  end.

Definition url_segment (s : string) : bool :=
  negb (String.eqb s EmptyString) && no_slash s.

(** ** Sample data

    The registration of §8 of the specification, and three ways the
    outside can answer. *)

Module Sample.
Definition bucket : option string := Some "clientvault".

(** The texts Python prints, kept trivial: no sample prints a list, a
    dict or a date. *)
Definition repr (v : json) : string := "".
Definition iso (t : Z) : string := "".

(** S3 answers every call. *)
Definition online (now : Z) (token : string) : env :=
  {| utcnow := now; uuid4 := token;
     s3_client := λ _, Returned "https://clientvault.s3.amazonaws.com/signed" |}.

(** S3 refuses every call. *)
Definition refusing (now : Z) (token : string) : env :=
  {| utcnow := now; uuid4 := token;
     s3_client := λ _, ClientError "An error occurred (AccessDenied)" |}.

(** S3 cannot be reached: boto3 raises [EndpointConnectionError], which
    is not a [ClientError]. *)
Definition offline (now : Z) (token : string) : env :=
  {| utcnow := now; uuid4 := token;
     s3_client := λ _, OtherError "Could not connect to the endpoint URL" |}.

(** boto3 finds no credentials: signing raises [NoCredentialsError],
    which is not a [ClientError] either. *)
Definition no_credentials (now : Z) (token : string) : env :=
  {| utcnow := now; uuid4 := token;
     s3_client := λ _, OtherError "Unable to locate credentials" |}.

(** The router of the sample: a path the rule does not match is
    answered 404, except that ['/api/clients//x'] is redirected to
    ['/api/clients/x']. *)
Definition router (s : string) : Z :=
  match s with
  | String c seg =>
    if String.eqb (String c EmptyString) "/" && url_segment seg
    then 308 else 404
  | EmptyString => 404
  end.

Definition address : json :=
  JObj {[ "street" := JStr "1 Main St"; "city" := JStr "Springfield";
          "state" := JStr "IL"; "zip" := JStr "62701";
          "country" := JStr "US" ]}.

Definition registration (clientId : string) : gmap string json :=
  {[ "clientId" := JStr clientId;
     "firstName" := JStr "Ada";
     "lastName" := JStr "Lovelace";
     "email" := JStr "ada@example.org";
     "address" := address;
     "pictures" := JArr [
       JObj {[ "key" := JStr "clients/C123/a_photo.png";
               "fileName" := JStr "photo.png";
               "fileType" := JStr "image/png" ]};
       JObj {[ "key" := JStr "clients/C123/b_scan.png" ]} ] ]}.

Definition upload : gmap string json :=
  {[ "fileName" := JStr "photo.png"; "fileType" := JStr "image/png";
     "clientId" := JStr "C123" ]}.

(** The world once [registration "C123"] was accepted at time 10. *)
Definition registered_C123 : world :=
  {| db := {|
       clients := [
         {| Client.id := 1; Client.client_id := "C123";
            Client.first_name := "Ada"; Client.last_name := "Lovelace";
            Client.email := "ada@example.org";
            Client.phone := None; Client.dob := None;
            Client.street := Some "1 Main St";
            Client.city := Some "Springfield";
            Client.state := Some "IL";
            Client.zip_code := Some "62701";
            Client.country := Some "US";
            Client.notes := None; Client.created_at := 10 |} ];
       client_pictures := [
         {| ClientPicture.id := 1; ClientPicture.client_id := 1;
            ClientPicture.s3_key := "clients/C123/a_photo.png";
            ClientPicture.file_name := Some "photo.png";
            ClientPicture.file_type := Some "image/png";
            ClientPicture.uploaded_at := 10 |};
         {| ClientPicture.id := 2; ClientPicture.client_id := 1;
            ClientPicture.s3_key := "clients/C123/b_scan.png";
            ClientPicture.file_name := None;
            ClientPicture.file_type := None;
            ClientPicture.uploaded_at := 10 |} ];
       clients_next_id := 2;
       pictures_next_id := 3 |};
     s3_calls := [] |}.

(** A client row with nothing but its identifiers and creation time. *)
Definition client_row (id : Z) (client_id : string) (created_at : Z)
  : Client.row :=
  {| Client.id := id; Client.client_id := client_id;
     Client.first_name := "Ada"; Client.last_name := "Lovelace";
     Client.email := "ada@example.org";
     Client.phone := None; Client.dob := None; Client.street := None;
     Client.city := None; Client.state := None; Client.zip_code := None;
     Client.country := None; Client.notes := None;
     Client.created_at := created_at |}.

(** A picture row with nothing but its keys. *)
Definition picture_row (id client_id : Z) (s3_key : string)
  : ClientPicture.row :=
  {| ClientPicture.id := id; ClientPicture.client_id := client_id;
     ClientPicture.s3_key := s3_key;
     ClientPicture.file_name := None; ClientPicture.file_type := None;
     ClientPicture.uploaded_at := 0 |}.

(** Three clients, created at times 100 < 200 < 300; the first has two
    pictures and the third has one, uploaded in between. *)
Definition three_clients : world :=
  {| db := {| clients := [client_row 1 "C1" 100; client_row 2 "C2" 200;
                          client_row 3 "C3" 300];
              client_pictures := [picture_row 1 1 "clients/C1/a_photo.png";
                                  picture_row 2 3 "clients/C3/b_scan.png";
                                  picture_row 3 1 "clients/C1/c_id.png"];
              clients_next_id := 4;
              pictures_next_id := 4 |};
     s3_calls := [] |}.
End Sample.

(** ** Routes (lines 97-204) *)

Section App.
(** [S3_BUCKET = os.getenv('S3_BUCKET_NAME')]. *)
Variable S3_BUCKET : option string.
(** The text an f-string prints for a list or a dict. *)
Variable py_repr : json → string.
(** [datetime.isoformat]. *)
Variable isoformat : Z → string.
(** The status the router answers with for the path ['/api/clients/' + s]
    when the rule does not match [s]: 404 Not Found, or 308 where the
    router finds a match once doubled slashes are merged and redirects
    there.  Which paths it redirects is left to the router. *)
Variable no_rule : string → Z.

(** [f"{v}"]. *)
Definition py_str (v : json) : string :=
  match v with
  | JStr s => s
  | JNull => "None"
  | _ => py_repr v
  end.

Definition ClientPicture_to_dict (p : ClientPicture.row) : PictureDict.t :=
  let url := "https://" +:+ py_str (nullable S3_BUCKET) +:+ ".s3.amazonaws.com/"
               +:+ ClientPicture.s3_key p in
  {| PictureDict.id := ClientPicture.id p;
     PictureDict.s3_key := ClientPicture.s3_key p;
     PictureDict.file_name := ClientPicture.file_name p;
     PictureDict.file_type := ClientPicture.file_type p;
     PictureDict.url := url |}.

Definition Client_to_dict (d : database) (c : Client.row) : ClientDict.t :=
  {| ClientDict.id := Client.id c;
     ClientDict.client_id := Client.client_id c;
     ClientDict.first_name := Client.first_name c;
     ClientDict.last_name := Client.last_name c;
     ClientDict.email := Client.email c;
     ClientDict.phone := Client.phone c;
     ClientDict.dob := Client.dob c;
     ClientDict.address := JObj {[
       "street"  := nullable (Client.street c);
       "city"    := nullable (Client.city c);
       "state"   := nullable (Client.state c);
       "zip"     := nullable (Client.zip_code c);
       "country" := nullable (Client.country c) ]};
     ClientDict.notes := Client.notes c;
     ClientDict.pictures := ClientPicture_to_dict <$> pictures_of c d;
     ClientDict.created_at := isoformat (Client.created_at c) |}.

(** [get_upload_url], lines 110-131. *)
Definition get_upload_url (e : env) (data : json) (w : world)
  : response * world :=
  match data with
  | JObj data =>
    let file_name := default (JStr "file") (data !! "fileName") in
    let file_type :=
      default (JStr "application/octet-stream") (data !! "fileType") in
    let client_id := default (JStr "unknown") (data !! "clientId") in
    let s3_key := "clients/" +:+ py_str client_id +:+ "/" +:+ uuid4 e
                    +:+ "_" +:+ py_str file_name in
    let call :=
      generate_presigned_url "put_object" S3_BUCKET s3_key file_type 300 in
    let w' := {| db := db w; s3_calls := s3_calls w ++ [call] |} in
    match s3_client e call with
    | Returned presigned_url => (Json 200 (UploadUrl presigned_url s3_key), w')
    | ClientError msg => (Json 500 (Error msg), w')
    | OtherError msg => (Unhandled (BotoCoreError msg), w')
    end
  | _ => (Unhandled AttributeError, w)
  end.

(** The body of the loop at lines 163-170, up to [session.add]. *)
Fixpoint picture_objs (client_id : Z) (pics : list json)
  : result (list ClientPicture.obj) :=
  match pics with
  | [] => Ok []
  | pic :: pics' =>
    key      ← py_get pic "key";
    fileName ← py_get pic "fileName";
    fileType ← py_get pic "fileType";
    objs ← picture_objs client_id pics';
    Ok ({| ClientPicture.o_client_id := client_id;
           ClientPicture.o_s3_key := key;
           ClientPicture.o_file_name := fileName;
           ClientPicture.o_file_type := fileType |} :: objs)
  end.

(** [create_client], lines 135-173, as one unit of work on the
    database: the response and the state to commit, or the exception
    that rolls the session back. *)
Definition create_client_session (e : env) (data : json) (d : database)
  : result (response * database) :=
  clientId ← py_get data "clientId";
  existing ← filter_by_client_id clientId d;
  if existing is Some _ then
    Ok (Json 409 (Error "Client ID already exists"), d)
  else
    address   ← default (JObj ∅) <$> py_get data "address";
    firstName ← py_get data "firstName";
    lastName  ← py_get data "lastName";
    email     ← py_get data "email";
    phone     ← py_get data "phone";
    dob       ← py_get data "dob";
    street    ← py_get address "street";
    city      ← py_get address "city";
    state     ← py_get address "state";
    zip       ← py_get address "zip";
    country   ← py_get address "country";
    notes     ← py_get data "notes";
    let client := {| Client.o_client_id := clientId;
                     Client.o_first_name := firstName;
                     Client.o_last_name := lastName;
                     Client.o_email := email;
                     Client.o_phone := phone;
                     Client.o_dob := dob;
                     Client.o_street := street;
                     Client.o_city := city;
                     Client.o_state := state;
                     Client.o_zip_code := zip;
                     Client.o_country := country;
                     Client.o_notes := notes |} in
    '(c, d1) ← insert_client (utcnow e) client d;
    pictures ← default (JArr []) <$> py_get data "pictures";
    pics ← py_iter pictures;
    objs ← picture_objs (Client.id c) pics;
    d2 ← insert_pictures (utcnow e) objs d1;
    Ok (Json 201 (Registered "Client registered" (Client.client_id c)
                    (Client.id c)), d2).

Definition create_client (e : env) (data : json) (w : world)
  : response * world :=
  match create_client_session e data (db w) with
  | Ok (r, d) => (r, {| db := d; s3_calls := s3_calls w |})
  | Raise ex => (Unhandled ex, w)
  end.

(** [ORDER BY created_at DESC]. *)
Definition created_at_desc (a b : Client.row) : Prop :=
  (Client.created_at b ≤ Client.created_at a)%Z.

#[global] Instance created_at_desc_dec a b : Decision (created_at_desc a b) :=
  Z_le_dec _ _.

(** [get_clients], lines 177-180. *)
Definition get_clients (w : world) : response * world :=
  let clients := merge_sort created_at_desc (clients (db w)) in
  (Json 200 (ClientList (Client_to_dict (db w) <$> clients)), w).

(** [get_client], lines 184-187: the rule, then the view. *)
Definition get_client (client_id : string) (w : world) : response * world :=
  if url_segment client_id then
    match filter_by_client_id (Some (JStr client_id)) (db w) with
    | Ok (Some client) =>
      (Json 200 (ClientOne (Client_to_dict (db w) client)), w)
    | Ok None => (Abort 404, w)
    | Raise ex => (Unhandled ex, w)
    end
  else (Abort (no_rule client_id), w).

(** The loop at lines 196-200: the calls made, and the exception that
    left the loop if one did. *)
Fixpoint delete_files (e : env) (pics : list ClientPicture.row)
  : list s3_call * option exn :=
  match pics with
  | [] => ([], None)
  | pic :: pics' =>
    let call := delete_object S3_BUCKET (ClientPicture.s3_key pic) in
    match s3_client e call with
    | Returned _ | ClientError _ =>
      let '(calls, r) := delete_files e pics' in (call :: calls, r)
    | OtherError msg => ([call], Some (BotoCoreError msg))
    end
  end.

(** [delete_client], lines 191-204: the rule, then the view. *)
Definition delete_client (e : env) (client_id : string) (w : world)
  : response * world :=
  if url_segment client_id then
    match filter_by_client_id (Some (JStr client_id)) (db w) with
    | Ok (Some client) =>
      let '(calls, r) := delete_files e (pictures_of client (db w)) in
      match r with
      | None =>
        (Json 200 (Message ("Client " +:+ client_id +:+ " deleted")),
         {| db := delete_cascade client (db w);
            s3_calls := s3_calls w ++ calls |})
      | Some ex =>
        (Unhandled ex, {| db := db w; s3_calls := s3_calls w ++ calls |})
      end
    | Ok None => (Abort 404, w)
    | Raise ex => (Unhandled ex, w)
    end
  else (Abort (no_rule client_id), w).

Definition handle (e : env) (r : request) (w : world) : response * world :=
  match r with
  | POST_get_upload_url data => get_upload_url e data w
  | POST_clients data => create_client e data w
  | GET_clients => get_clients w
  | GET_client client_id => get_client client_id w
  | DELETE_client client_id => delete_client e client_id w
  end.

(** Requests served one after the other, each with the answers the
    outside gave while it ran. *)
Fixpoint serve (rs : list (env * request)) (w : world)
  : list response * world :=
  match rs with
  | [] => ([], w)
  | (e, r) :: rs' =>
    let '(resp, w1) := handle e r w in
    let '(resps, w2) := serve rs' w1 in
    (resp :: resps, w2)
  end.

(** The states the service can be in. *)
Inductive reachable : world → Prop :=
  | reachable_init : reachable init
  | reachable_step e r w :
      reachable w → reachable (handle e r w).2.


(** ** The invariant of the store *)

(** External identifiers are unique, and every identifier handed out,
    as a primary or as a foreign key, is below the counter. *)
Record db_ok (d : database) : Prop := {
  ok_unique : NoDup (Client.client_id <$> clients d);
  ok_ids : Forall (λ c, Client.id c < clients_next_id d) (clients d);
  ok_fk : Forall (λ p, ClientPicture.client_id p < clients_next_id d)
            (client_pictures d);
}.

(** The external identifiers of the clients a run registered: the
    [clientId] of each 201 answer. *)
Definition registered (r : response) : option string :=
  match r with
  | Json 201 (Registered _ clientId _) => Some clientId
  | _ => None
  end.

(** *** Keys

    Primary keys are unique and below their counter, and every picture
    refers to a stored client. *)
Record keys_ok (d : database) : Prop := {
  ok_client_pk : NoDup (Client.id <$> clients d);
  ok_picture_pk : NoDup (ClientPicture.id <$> client_pictures d);
  ok_picture_ids :
    Forall (λ p, ClientPicture.id p < pictures_next_id d) (client_pictures d);
  ok_references :
    Forall (λ p, ClientPicture.client_id p ∈ Client.id <$> clients d)
      (client_pictures d);
}.

(** *** Column widths *)

(** A nullable value fits [db.String(n)]. *)
Definition fits (n : nat) (v : option string) : Prop :=
  ∀ s, v = Some s → (String.length s ≤ n)%nat.

(** The widths declared at lines 39-49. *)
Definition client_fits (c : Client.row) : Prop :=
  (String.length (Client.client_id c) ≤ 50)%nat
  ∧ (String.length (Client.first_name c) ≤ 100)%nat
  ∧ (String.length (Client.last_name c) ≤ 100)%nat
  ∧ (String.length (Client.email c) ≤ 150)%nat
  ∧ fits 30 (Client.phone c)
  ∧ fits 20 (Client.dob c)
  ∧ fits 255 (Client.street c)
  ∧ fits 100 (Client.city c)
  ∧ fits 100 (Client.state c)
  ∧ fits 20 (Client.zip_code c)
  ∧ fits 100 (Client.country c).

(** The widths declared at lines 81-83. *)
Definition picture_fits (p : ClientPicture.row) : Prop :=
  (String.length (ClientPicture.s3_key p) ≤ 500)%nat
  ∧ fits 255 (ClientPicture.file_name p)
  ∧ fits 100 (ClientPicture.file_type p).

(** The routes that only read the database. *)
Definition reads_only (r : request) : Prop :=
  match r with
  | POST_clients _ | DELETE_client _ => False
  | _ => True
  end.

(** The routes that never call S3. *)
Definition makes_no_s3_call (r : request) : Prop :=
  match r with
  | POST_get_upload_url _ | DELETE_client _ => False
  | _ => True
  end.

(** * Properties *)

(** ** The exception monad *)

Lemma bind_Ok {A B} (f : A → result B) (m : result A) (b : B) :
  m ≫= f = Ok b ↔ ∃ a, m = Ok a ∧ f a = Ok b.
Proof.
  destruct m as [a|e]; simpl.
  - split; [eauto | intros (a' & [= ->] & ?); done].
  - split; [done | intros (? & ? & ?); done].
Qed.

Lemma bind_param_str s : bind_param (Some (JStr s)) = Ok (Some s).
Proof. reflexivity. Qed.

Lemma bind_param_nullable v : bind_param (Some (nullable v)) = Ok v.
Proof. by destruct v. Qed.

Lemma String_Ok n v v' : String_ n v = Ok v' → v' = v.
Proof. destruct v; simpl; [case_decide|]; congruence. Qed.

Lemma not_null_Ok v s : not_null v = Ok s → v = Some s.
Proof. destruct v; simpl; congruence. Qed.

Lemma column_not_null n v s :
  String_ n v ≫= not_null = Ok s → v = Some s.
Proof.
  intros H. apply bind_Ok in H as (v' & E & H).
  apply String_Ok in E as ->. by apply not_null_Ok.
Qed.

(** ** Statements *)

Lemma insert_client_Ok t o d c d' :
  insert_client t o d = Ok (c, d') →
  bind_param (Client.o_client_id o) = Ok (Some (Client.client_id c))
  ∧ (Client.client_id c ∉ Client.client_id <$> clients d)
  ∧ Client.id c = clients_next_id d
  ∧ Client.created_at c = t
  ∧ d' = {| clients := clients d ++ [c];
            client_pictures := client_pictures d;
            clients_next_id := clients_next_id d + 1;
            pictures_next_id := pictures_next_id d |}.
Proof.
  unfold insert_client. intros H.
  apply bind_Ok in H as (p_client_id & Ecid & H).
  do 11 (apply bind_Ok in H as (? & _ & H)).
  apply bind_Ok in H as (c_client_id & Hcid & H).
  do 10 (apply bind_Ok in H as (? & _ & H)).
  case_decide as Hdup; [done|].
  injection H as <- <-; simpl.
  apply column_not_null in Hcid as ->. done.
Qed.

(** The address columns hold what was bound. *)
Lemma insert_client_address t o d c d' :
  insert_client t o d = Ok (c, d') →
  bind_param (Client.o_street o) = Ok (Client.street c)
  ∧ bind_param (Client.o_city o) = Ok (Client.city c)
  ∧ bind_param (Client.o_state o) = Ok (Client.state c)
  ∧ bind_param (Client.o_zip_code o) = Ok (Client.zip_code c)
  ∧ bind_param (Client.o_country o) = Ok (Client.country c).
Proof.
  unfold insert_client. intros H.
  do 6 (apply bind_Ok in H as (? & _ & H)).
  apply bind_Ok in H as (p_street & E1 & H).
  apply bind_Ok in H as (p_city & E2 & H).
  apply bind_Ok in H as (p_state & E3 & H).
  apply bind_Ok in H as (p_zip & E4 & H).
  apply bind_Ok in H as (p_country & E5 & H).
  do 7 (apply bind_Ok in H as (? & _ & H)).
  apply bind_Ok in H as (c_street & ->%String_Ok & H).
  apply bind_Ok in H as (c_city & ->%String_Ok & H).
  apply bind_Ok in H as (c_state & ->%String_Ok & H).
  apply bind_Ok in H as (c_zip & ->%String_Ok & H).
  apply bind_Ok in H as (c_country & ->%String_Ok & H).
  case_decide; [done|]. by injection H as <- <-.
Qed.

Lemma insert_picture_Ok t o d d' :
  insert_picture t o d = Ok d' →
  ∃ p,
    bind_param (ClientPicture.o_s3_key o) = Ok (Some (ClientPicture.s3_key p))
    ∧ ClientPicture.client_id p = ClientPicture.o_client_id o
    ∧ ClientPicture.o_client_id o ∈ (Client.id <$> clients d)
    ∧ d' = {| clients := clients d;
              client_pictures := client_pictures d ++ [p];
              clients_next_id := clients_next_id d;
              pictures_next_id := pictures_next_id d + 1 |}.
Proof.
  unfold insert_picture. intros H.
  apply bind_Ok in H as (p_key & Ekey & H).
  do 2 (apply bind_Ok in H as (? & _ & H)).
  apply bind_Ok in H as (c_key & ->%column_not_null & H).
  do 2 (apply bind_Ok in H as (? & _ & H)).
  case_decide as Hfk; [|done].
  injection H as <-. eexists; split_and!; last reflexivity; simpl; done.
Qed.

Lemma insert_pictures_Ok t os d d' :
  insert_pictures t os d = Ok d' →
  ∃ ps,
    Forall2 (λ o p,
      bind_param (ClientPicture.o_s3_key o)
      = Ok (Some (ClientPicture.s3_key p))
      ∧ ClientPicture.client_id p = ClientPicture.o_client_id o
      ∧ ClientPicture.o_client_id o ∈ (Client.id <$> clients d)) os ps
    ∧ clients d' = clients d
    ∧ client_pictures d' = client_pictures d ++ ps
    ∧ clients_next_id d' = clients_next_id d.
Proof.
  revert d. induction os as [|o os IH]; simpl; intros d H.
  - injection H as <-. exists []. by rewrite app_nil_r.
  - apply bind_Ok in H as (d1 & (p & Hkey & Hfk & Hin & ->)%insert_picture_Ok & H).
    apply IH in H as (ps & HF & Hc & Hp & Hn); simpl in *.
    exists (p :: ps). rewrite Hp, <-app_assoc. auto.
Qed.

(** ** Routes, step by step *)

Lemma picture_objs_Ok client_id pics objs :
  picture_objs client_id pics = Ok objs →
  Forall2 (λ pic o,
    py_get pic "key" = Ok (ClientPicture.o_s3_key o)
    ∧ ClientPicture.o_client_id o = client_id) pics objs.
Proof.
  revert objs. induction pics as [|pic pics IH]; simpl; intros objs H.
  - injection H as <-. constructor.
  - apply bind_Ok in H as (key & Hkey & H).
    do 2 (apply bind_Ok in H as (? & _ & H)).
    apply bind_Ok in H as (objs' & Hobjs & H).
    injection H as <-. constructor; [done | by apply IH].
Qed.

(** What a unit of work of [create_client] that raised nothing did:
    it answered 409 and wrote nothing, or it answered 201 and wrote
    the client row and one picture row per descriptor. *)
Lemma create_client_session_Ok e data d r d' :
  create_client_session e data d = Ok (r, d') →
  (r = Json 409 (Error "Client ID already exists") ∧ d' = d)
  ∨ ∃ c address pics ps,
      r = Json 201 (Registered "Client registered" (Client.client_id c)
                      (Client.id c))
      ∧ py_get data "clientId" ≫= bind_param = Ok (Some (Client.client_id c))
      ∧ (Client.client_id c ∉ Client.client_id <$> clients d)
      ∧ Client.id c = clients_next_id d
      ∧ Client.created_at c = utcnow e
      ∧ default (JObj ∅) <$> py_get data "address" = Ok address
      ∧ py_get address "street" ≫= bind_param = Ok (Client.street c)
      ∧ py_get address "city" ≫= bind_param = Ok (Client.city c)
      ∧ py_get address "state" ≫= bind_param = Ok (Client.state c)
      ∧ py_get address "zip" ≫= bind_param = Ok (Client.zip_code c)
      ∧ py_get address "country" ≫= bind_param = Ok (Client.country c)
      ∧ (default (JArr []) <$> py_get data "pictures") ≫= py_iter = Ok pics
      ∧ Forall2 (λ pic p,
          py_get pic "key" ≫= bind_param = Ok (Some (ClientPicture.s3_key p))
          ∧ ClientPicture.client_id p = Client.id c) pics ps
      ∧ clients d' = clients d ++ [c]
      ∧ client_pictures d' = client_pictures d ++ ps
      ∧ clients_next_id d' = clients_next_id d + 1.
Proof.
  unfold create_client_session. intros H.
  apply bind_Ok in H as (clientId & HclientId & H).
  apply bind_Ok in H as (existing & Hexisting & H).
  destruct existing as [c0|]; [left; by injection H as <- <-|right].
  apply bind_Ok in H as (address & Haddress & H).
  do 5 (apply bind_Ok in H as (? & _ & H)).
  apply bind_Ok in H as (street & Hstreet & H).
  apply bind_Ok in H as (city & Hcity & H).
  apply bind_Ok in H as (state & Hstate & H).
  apply bind_Ok in H as (zip & Hzip & H).
  apply bind_Ok in H as (country & Hcountry & H).
  apply bind_Ok in H as (notes & _ & H).
  apply bind_Ok in H as ([c d1] & Hins & H).
  apply bind_Ok in H as (pictures & Hpictures & H).
  apply bind_Ok in H as (pics & Hpics & H).
  apply bind_Ok in H as (objs & Hobjs & H).
  apply bind_Ok in H as (d2 & Hd2 & H).
  injection H as <- <-.
  pose proof (insert_client_address _ _ _ _ _ Hins) as (A1 & A2 & A3 & A4 & A5).
  apply insert_client_Ok in Hins as (Hcid & Hfresh & Hid & Hat & ->);
    simpl in *.
  apply picture_objs_Ok in Hobjs.
  apply insert_pictures_Ok in Hd2 as (ps & HF & Hc & Hp & Hn); simpl in *.
  exists c, address, pics, ps.
  rewrite HclientId, Hstreet, Hcity, Hstate, Hzip, Hcountry, Hpictures. simpl.
  split_and!; try done.
  clear -Hobjs HF. revert ps HF.
  induction Hobjs as [|pic o pics objs [Hk Ho] _ IH]; intros ps HF;
    inversion HF as [|? p ? ps' (Hkey & Hfk & _) HF']; subst; constructor.
  - rewrite Hk. cbn [mbind result_bind]. rewrite Hkey, Hfk. done.
  - by apply IH.
Qed.

(** ** The invariant is kept *)

Lemma empty_db_ok : db_ok empty_db.
Proof. split; simpl; constructor. Qed.

Lemma create_client_session_ok e data d r d' :
  db_ok d → create_client_session e data d = Ok (r, d') → db_ok d'.
Proof.
  intros [Hu Hi Hf] [[_ ->]|(c & address & pics & ps & _ & _ & Hfresh & Hid
    & _ & _ & _ & _ & _ & _ & _ & _ & HF & Hc & Hp & Hn)]%create_client_session_Ok;
    [done|].
  split; rewrite ?Hc, ?Hp, ?Hn.
  - rewrite fmap_app. apply NoDup_app. split_and!; [done| |apply NoDup_singleton].
    intros s Hs [->|[]%elem_of_nil]%elem_of_cons. done.
  - apply Forall_app. split; [|apply Forall_singleton; lia].
    eapply Forall_impl; [done|]. simpl. lia.
  - apply Forall_app. split.
    + eapply Forall_impl; [done|]. simpl. lia.
    + clear -HF Hid. induction HF as [|pic p pics ps [_ Hk] _ IH];
        constructor; [lia | done].
Qed.

Lemma Forall_filtered {A} (P Q : A → Prop) `{!∀ x, Decision (Q x)} l :
  Forall P l → Forall P (filter Q l).
Proof.
  induction 1 as [|x l Hx _ IH]; [constructor|].
  rewrite filter_cons. case_decide; [by constructor | done].
Qed.

Lemma delete_cascade_ok c d : db_ok d → db_ok (delete_cascade c d).
Proof.
  intros [Hu Hi Hf]. split; simpl.
  - eapply sublist_NoDup; [done|]. apply fmap_sublist, sublist_filter.
  - by apply Forall_filtered.
  - by apply Forall_filtered.
Qed.

Lemma handle_ok e r w : db_ok (db w) → db_ok (db (handle e r w).2).
Proof.
  intros Hok. destruct r as [data|data| |client_id|client_id]; simpl.
  - unfold get_upload_url. destruct data; try done.
    by destruct (s3_client e _).
  - unfold create_client.
    destruct (create_client_session e data (db w)) as [[r d]|] eqn:E; [|done].
    by eapply create_client_session_ok.
  - done.
  - unfold get_client. destruct (url_segment _); [|done].
    simpl. by destruct (list_find _ _) as [[]|].
  - unfold delete_client. destruct (url_segment _); [|done].
    simpl. destruct (list_find _ _) as [[i c]|]; [|done].
    simpl. destruct (delete_files e _) as [calls [ex|]]; simpl; [done|].
    by apply delete_cascade_ok.
Qed.

Lemma reachable_ok w : reachable w → db_ok (db w).
Proof.
  induction 1 as [|e r w _ IH]; [apply empty_db_ok | by apply handle_ok].
Qed.

Lemma serve_reachable rs w : reachable w → reachable (serve rs w).2.
Proof.
  revert w. induction rs as [|[e r] rs IH]; intros w Hw; simpl; [done|].
  pose proof (reachable_step e r w Hw) as Hw1.
  destruct (handle e r w) as [resp w1]; simpl in *.
  specialize (IH w1 Hw1). by destruct (serve rs w1).
Qed.

(** ** Looking a client up *)

Lemma filter_by_client_id_found s c d :
  c ∈ clients d → Client.client_id c = s →
  ∃ c', filter_by_client_id (Some (JStr s)) d = Ok (Some c')
        ∧ c' ∈ clients d ∧ Client.client_id c' = s.
Proof.
  intros Hc Hs. unfold filter_by_client_id; simpl.
  destruct (list_find_elem_of (λ c, Client.client_id c = s) _ c Hc Hs)
    as [[i c'] Hfind].
  rewrite Hfind. exists c'. split; [done|].
  apply list_find_Some in Hfind as (Hi & Hc' & _).
  split; [by eapply list_elem_of_lookup_2 | done].
Qed.

Lemma filter_by_client_id_absent s d :
  (s ∉ Client.client_id <$> clients d) →
  filter_by_client_id (Some (JStr s)) d = Ok None.
Proof.
  intros Hs. unfold filter_by_client_id; simpl.
  destruct (list_find _ _) as [[i c]|] eqn:Hfind; [|done].
  apply list_find_Some in Hfind as (Hi & Hc & _).
  destruct Hs. apply list_elem_of_fmap. exists c.
  split; [done | by eapply list_elem_of_lookup_2].
Qed.

Lemma filter_by_client_id_last s c d l :
  clients d = l ++ [c] → (s ∉ Client.client_id <$> l) →
  Client.client_id c = s →
  filter_by_client_id (Some (JStr s)) d = Ok (Some c).
Proof.
  intros Hd Hs Hc. unfold filter_by_client_id; simpl.
  rewrite Hd, list_find_app_r.
  - simpl. by rewrite decide_True.
  - apply list_find_None, Forall_forall. intros c' Hc' Heq.
    destruct Hs. apply list_elem_of_fmap. by exists c'.
Qed.

(** The routes under ['/api/clients/<client_id>'] and their rule. *)
Lemma get_client_last s c w l :
  url_segment s = true →
  clients (db w) = l ++ [c] → (s ∉ Client.client_id <$> l) →
  Client.client_id c = s →
  get_client s w = (Json 200 (ClientOne (Client_to_dict (db w) c)), w).
Proof.
  intros Hseg Hd Hs Hc. unfold get_client.
  by rewrite Hseg, (filter_by_client_id_last s c (db w) l).
Qed.

Lemma get_client_no_rule s w :
  url_segment s = false → get_client s w = (Abort (no_rule s), w).
Proof. intros Hseg. unfold get_client. by rewrite Hseg. Qed.

Lemma get_client_absent s w :
  url_segment s = true →
  (s ∉ Client.client_id <$> clients (db w)) → get_client s w = (Abort 404, w).
Proof.
  intros Hseg Hs. unfold get_client.
  by rewrite Hseg, filter_by_client_id_absent.
Qed.

(** The pictures of a client just created are the rows just inserted. *)
Lemma pictures_of_created c d d' ps :
  db_ok d → Client.id c = clients_next_id d →
  client_pictures d' = client_pictures d ++ ps →
  Forall (λ p, ClientPicture.client_id p = Client.id c) ps →
  pictures_of c d' = ps.
Proof.
  intros [_ _ Hfk] Hid Hp Hps. unfold pictures_of.
  rewrite Hp, filter_app.
  replace (filter _ (client_pictures d)) with (@nil ClientPicture.row).
  - simpl. clear -Hps. induction Hps as [|p ps Hp _ IH]; [done|].
    rewrite filter_cons, decide_True by done. by rewrite IH.
  - symmetry. clear -Hfk Hid. induction Hfk as [|p l Hp _ IH]; [done|].
    rewrite filter_cons, decide_False by lia. done.
Qed.

(** ** [create_client] *)

(** A call either registers nothing and leaves the world as it was, or
    registers one client under an identifier that was free. *)
Lemma create_client_cases e data w r w' :
  create_client e data w = (r, w') →
  (registered r = None ∧ status_code r ≠ 201 ∧ w' = w)
  ∨ ∃ c address pics ps,
      r = Json 201 (Registered "Client registered" (Client.client_id c)
                      (Client.id c))
      ∧ s3_calls w' = s3_calls w
      ∧ py_get data "clientId" ≫= bind_param = Ok (Some (Client.client_id c))
      ∧ (Client.client_id c ∉ Client.client_id <$> clients (db w))
      ∧ Client.id c = clients_next_id (db w)
      ∧ Client.created_at c = utcnow e
      ∧ default (JObj ∅) <$> py_get data "address" = Ok address
      ∧ py_get address "street" ≫= bind_param = Ok (Client.street c)
      ∧ py_get address "city" ≫= bind_param = Ok (Client.city c)
      ∧ py_get address "state" ≫= bind_param = Ok (Client.state c)
      ∧ py_get address "zip" ≫= bind_param = Ok (Client.zip_code c)
      ∧ py_get address "country" ≫= bind_param = Ok (Client.country c)
      ∧ (default (JArr []) <$> py_get data "pictures") ≫= py_iter = Ok pics
      ∧ Forall2 (λ pic p,
          py_get pic "key" ≫= bind_param = Ok (Some (ClientPicture.s3_key p))
          ∧ ClientPicture.client_id p = Client.id c) pics ps
      ∧ clients (db w') = clients (db w) ++ [c]
      ∧ client_pictures (db w') = client_pictures (db w) ++ ps.
Proof.
  unfold create_client. intros H.
  destruct (create_client_session e data (db w)) as [[r0 d]|ex] eqn:E.
  - injection H as <- <-.
    apply create_client_session_Ok in E as [[-> ->]|(c & address & pics & ps
      & -> & E)].
    + left. by destruct w.
    + right. exists c, address, pics, ps. simpl.
      repeat match goal with H : _ ∧ _ |- _ => destruct H end.
      split_and!; done.
  - injection H as <- <-. by left.
Qed.

Lemma create_client_duplicate e data w s :
  py_get data "clientId" = Ok (Some (JStr s)) →
  s ∈ Client.client_id <$> clients (db w) →
  create_client e data w = (Json 409 (Error "Client ID already exists"), w).
Proof.
  intros Hget (c & Hs & Hc)%list_elem_of_fmap.
  destruct (filter_by_client_id_found s c (db w)) as (c' & Hfind & _);
    [done..|].
  unfold create_client, create_client_session.
  rewrite Hget. cbn [mbind result_bind]. rewrite Hfind.
  cbn [mbind result_bind]. by destruct w.
Qed.

(** Along a run of [create_client] calls the registered identifiers are
    new, distinct, and stored at the end. *)
Lemma serve_create_clients (calls : list (env * json)) w :
  let out := serve (prod_map id POST_clients <$> calls) w in
  NoDup (omap registered out.1)
  ∧ (∀ s, s ∈ omap registered out.1 →
       s ∉ Client.client_id <$> clients (db w))
  ∧ (∀ s, s ∈ Client.client_id <$> clients (db w) →
       s ∈ Client.client_id <$> clients (db out.2)).
Proof.
  revert w. induction calls as [|[e data] calls IH]; intros w; simpl.
  { split_and!; [constructor | by intros s ?%elem_of_nil | done]. }
  destruct (create_client e data w) as [r w1] eqn:E.
  specialize (IH w1).
  destruct (serve _ w1) as [resps w2]; simpl in *.
  destruct IH as (Hnd & Hnew & Hkeep).
  apply create_client_cases in E as [(Hr & _ & ->)|(c & ? & ? & ? & -> & _ & _
    & Hfresh & _ & _ & _ & _ & _ & _ & _ & _ & _ & _ & Hc & _)].
  - rewrite Hr. done.
  - simpl. rewrite Hc, fmap_app in Hnew, Hkeep. simpl in *.
    split_and!.
    + constructor; [|done]. intros Hin. apply (Hnew _ Hin).
      apply elem_of_app. right. by apply list_elem_of_singleton.
    + intros s [->|Hin]%elem_of_cons; [done|].
      intros Hs. apply (Hnew _ Hin). apply elem_of_app. by left.
    + intros s Hs. apply Hkeep, elem_of_app. by left.
Qed.

(** ** The claims about [create_client] *)

(** C1 (uniqueness).  Whatever [create_client] calls are served from a
    state the service can be in, no two of the clients they register
    share an external identifier, the stored identifiers stay pairwise
    distinct, and one more call whose [clientId] is already stored
    answers 409 and leaves the world exactly as it was: no client row and
    no picture row is written. *)
Theorem create_client_unique (calls : list (env * json)) (w : world) :
  reachable w →
  let out := serve (prod_map id POST_clients <$> calls) w in
  NoDup (omap registered out.1)
  ∧ NoDup (Client.client_id <$> clients (db out.2))
  ∧ ∀ e data s,
      py_get data "clientId" = Ok (Some (JStr s)) →
      s ∈ Client.client_id <$> clients (db out.2) →
      create_client e data out.2
      = (Json 409 (Error "Client ID already exists"), out.2)
        ∧ status_code (create_client e data out.2).1 = 409.
Proof.
  intros Hw out. split_and!.
  - apply serve_create_clients.
  - apply reachable_ok, serve_reachable, Hw.
  - intros e data s Hget Hs.
    rewrite (create_client_duplicate e data out.2 s) by done. done.
Qed.

(** C2 (atomic composition).  A [create_client] call from a state the
    service can be in either answers something other than 201 and leaves
    the world as it was, or answers 201 having appended the client row
    and one picture row per submitted descriptor, all owned by the new
    client and each with the key of its descriptor.  When the rule of
    [get_client] matches the external identifier (it is not empty and
    has no [/]), fetching the client returns it with a picture list that
    matches the descriptors one for one: same count, same keys.  For any
    other identifier the rows are stored all the same, and the fetch
    reaches no view: the router answers by itself. *)
Theorem create_client_atomic e data w r w' :
  reachable w →
  create_client e data w = (r, w') →
  (status_code r ≠ 201 ∧ w' = w)
  ∨ ∃ c pics ps,
      r = Json 201 (Registered "Client registered" (Client.client_id c)
                      (Client.id c))
      ∧ (default (JArr []) <$> py_get data "pictures") ≫= py_iter = Ok pics
      ∧ clients (db w') = clients (db w) ++ [c]
      ∧ client_pictures (db w') = client_pictures (db w) ++ ps
      ∧ Forall (λ p, ClientPicture.client_id p = Client.id c) ps
      ∧ Forall2 (λ pic p,
          py_get pic "key" ≫= bind_param = Ok (Some (ClientPicture.s3_key p)))
          pics ps
      ∧ (url_segment (Client.client_id c) = true →
         ∃ cd,
           get_client (Client.client_id c) w' = (Json 200 (ClientOne cd), w')
           ∧ ClientDict.client_id cd = Client.client_id c
           ∧ length (ClientDict.pictures cd) = length pics
           ∧ Forall2 (λ pic pd,
               py_get pic "key" ≫= bind_param
               = Ok (Some (PictureDict.s3_key pd)))
               pics (ClientDict.pictures cd))
      ∧ (url_segment (Client.client_id c) = false →
         get_client (Client.client_id c) w'
         = (Abort (no_rule (Client.client_id c)), w')).
Proof.
  intros Hw%reachable_ok H.
  apply create_client_cases in H as [(_ & Hr & ->)|(c & address & pics & ps
    & -> & _ & _ & Hfresh & Hid & _ & _ & _ & _ & _ & _ & _ & Hpics & HF
    & Hc & Hp)]; [by left|right].
  assert (Forall (λ p, ClientPicture.client_id p = Client.id c) ps) as Hown.
  { clear -HF. induction HF as [|???? [_ ?]]; by constructor. }
  assert (Forall2 (λ pic p,
            py_get pic "key" ≫= bind_param
            = Ok (Some (ClientPicture.s3_key p))) pics ps) as Hkeys.
  { clear -HF. induction HF as [|???? [? _]]; by constructor. }
  exists c, pics, ps.
  split_and!; try done; [|apply get_client_no_rule].
  intros Hseg. exists (Client_to_dict (db w') c). split_and!; [|done| |].
  - by apply (get_client_last _ c _ (clients (db w))).
  - simpl. rewrite (pictures_of_created c (db w) (db w') ps) by done.
    rewrite length_fmap. symmetry. by eapply Forall2_length.
  - simpl. rewrite (pictures_of_created c (db w) (db w') ps) by done.
    by apply Forall2_fmap_r.
Qed.

Lemma address_lookup (street city state zip country : json)
    (address := {[ "street" := street; "city" := city; "state" := state;
                   "zip" := zip; "country" := country ]} : gmap string json) :
  address !! "street" = Some street
  ∧ address !! "city" = Some city
  ∧ address !! "state" = Some state
  ∧ address !! "zip" = Some zip
  ∧ address !! "country" = Some country.
Proof. by vm_compute. Qed.

(** C9 (round trip).  A client created with an [address] object made
    of the five fields [street], [city], [state], [zip], [country]
    (strings, or [null]), under an identifier the rule of [get_client]
    matches, is returned by [get_client] with that very object as its
    [address].  Under an identifier that is empty or contains [/] the
    client is created as well, and [get_client] is not reached: the
    router answers by itself. *)
Theorem address_round_trip e (data : gmap string json) w w' msg s id
    (street city state zip country : option string) :
  reachable w →
  data !! "address" = Some (JObj {[
    "street"  := nullable street;
    "city"    := nullable city;
    "state"   := nullable state;
    "zip"     := nullable zip;
    "country" := nullable country ]}) →
  create_client e (JObj data) w = (Json 201 (Registered msg s id), w') →
  (url_segment s = true →
   ∃ cd,
     get_client s w' = (Json 200 (ClientOne cd), w')
     ∧ Some (ClientDict.address cd) = data !! "address")
  ∧ (url_segment s = false → get_client s w' = (Abort (no_rule s), w')).
Proof.
  intros Hw%reachable_ok Haddr H.
  apply create_client_cases in H as [(_ & Hr & _)|(c & address & pics & ps
    & [= -> -> ->] & _ & _ & Hfresh & Hid & _ & Ha & H1 & H2 & H3 & H4 & H5
    & _ & _ & Hc & _)]; [done|].
  split; [|apply get_client_no_rule]. intros Hseg.
  exists (Client_to_dict (db w') c). split.
  - by apply (get_client_last _ c _ (clients (db w))).
  - simpl in Ha. rewrite Haddr in Ha. injection Ha as <-.
    rewrite Haddr. unfold py_get in H1, H2, H3, H4, H5.
    destruct (address_lookup (nullable street) (nullable city)
      (nullable state) (nullable zip) (nullable country))
      as (L1 & L2 & L3 & L4 & L5).
    rewrite L1 in H1. rewrite L2 in H2. rewrite L3 in H3.
    rewrite L4 in H4. rewrite L5 in H5.
    cbn [mbind result_bind] in H1, H2, H3, H4, H5.
    rewrite bind_param_nullable in H1, H2, H3, H4, H5.
    simpl. congruence.
Qed.

(** ** [delete_client] *)

Lemma NoDup_fmap_elem {A B} (f : A → B) (l : list A) x y :
  NoDup (f <$> l) → x ∈ l → y ∈ l → f x = f y → x = y.
Proof.
  induction l as [|a l IH]; simpl; [by intros _ ?%elem_of_nil|].
  intros [Ha Hl]%NoDup_cons [->|Hx]%elem_of_cons [->|Hy]%elem_of_cons Hf;
    [done| | |by apply IH].
  - destruct Ha. rewrite Hf. apply list_elem_of_fmap. by exists y.
  - destruct Ha. rewrite <-Hf. apply list_elem_of_fmap. by exists x.
Qed.

(** The loop ends normally exactly when no call raised anything but a
    [ClientError]; it then made one call per picture. *)
Lemma delete_files_swallowed e pics :
  Forall (λ pic, ∀ msg,
    s3_client e (delete_object S3_BUCKET (ClientPicture.s3_key pic))
    ≠ OtherError msg) pics →
  delete_files e pics
  = ((λ pic, delete_object S3_BUCKET (ClientPicture.s3_key pic)) <$> pics,
     None).
Proof.
  induction 1 as [|pic pics Hpic _ IH]; simpl; [done|].
  rewrite IH. by destruct (s3_client e _) eqn:E; [..|destruct (Hpic msg)].
Qed.

(** C3 (cascade on delete).  After [delete_client] answered 200 for an
    identifier, in a state the service can be in, [get_client] for that
    identifier answers 404, no stored client carries the identifier, and
    no picture row refers to the surrogate identifier of the deleted
    client: its pictures went with it in the same commit. *)
Theorem delete_client_cascade e s w b w' :
  reachable w →
  delete_client e s w = (Json 200 b, w') →
  ∃ c,
    c ∈ clients (db w) ∧ Client.client_id c = s
    ∧ db w' = delete_cascade c (db w)
    ∧ get_client s w' = (Abort 404, w')
    ∧ (s ∉ Client.client_id <$> clients (db w'))
    ∧ Forall (λ p, ClientPicture.client_id p ≠ Client.id c)
        (client_pictures (db w')).
Proof.
  intros [Hu _ _]%reachable_ok. unfold delete_client, filter_by_client_id.
  destruct (url_segment s) eqn:Hseg; [|done].
  simpl. destruct (list_find _ _) as [[i c]|] eqn:Hfind; simpl; [|done].
  apply list_find_Some in Hfind as (Hc%list_elem_of_lookup_2 & Hs & _).
  destruct (delete_files e _) as [calls [ex|]]; [done|].
  intros [= <- <-]. exists c; simpl.
  assert (s ∉ Client.client_id <$>
            filter (λ c', Client.id c' ≠ Client.id c) (clients (db w)))
    as Hgone.
  { intros (c' & Hs' & [Hne Hc']%list_elem_of_filter)%list_elem_of_fmap.
    destruct Hne. f_equal.
    apply (NoDup_fmap_elem Client.client_id (clients (db w))); congruence. }
  split_and!; try done.
  - by apply get_client_absent.
  - apply Forall_forall. intros p [Hp Hin]%list_elem_of_filter Hfk.
    destruct Hp. apply list_elem_of_fmap. exists p. split; [done|].
    by apply list_elem_of_filter.
Qed.

(** Rejected object deletions do not stop the deletion: when every
    [delete_object] call returns or raises [ClientError], a known client
    whose identifier the rule matches is deleted and the answer is 200. *)
Lemma delete_client_swallows_ClientError e s w :
  url_segment s = true →
  s ∈ Client.client_id <$> clients (db w) →
  (∀ key msg, s3_client e (delete_object S3_BUCKET key) ≠ OtherError msg) →
  ∃ c calls,
    delete_client e s w
    = (Json 200 (Message ("Client " +:+ s +:+ " deleted")),
       {| db := delete_cascade c (db w); s3_calls := s3_calls w ++ calls |}).
Proof.
  intros Hseg (c & Hs & Hc)%list_elem_of_fmap Hs3.
  destruct (filter_by_client_id_found s c (db w)) as (c' & Hfind & _);
    [done..|].
  unfold delete_client. rewrite Hseg, Hfind, delete_files_swallowed.
  - by eexists _, _.
  - apply Forall_forall. intros pic _ msg. apply Hs3.
Qed.

(** ** [get_upload_url] *)




(** C6 (upload grant).  [get_upload_url] makes exactly one call to the
    object store: a presigned-URL request for [put_object] on the
    configured bucket, the generated key and the declared content type,
    valid for 300 seconds.  Nothing is written, and when the store
    returns a URL the answer is 200 with that URL and that key. *)
Theorem upload_grant_request e (data : gmap string json) w
    client_id file_name file_type :
  data !! "clientId" = Some (JStr client_id) →
  data !! "fileName" = Some (JStr file_name) →
  data !! "fileType" = Some file_type →
  let key :=
    "clients/" +:+ client_id +:+ "/" +:+ uuid4 e +:+ "_" +:+ file_name in
  let call := generate_presigned_url "put_object" S3_BUCKET key file_type 300 in
  let out := get_upload_url e (JObj data) w in
  s3_calls out.2 = s3_calls w ++ [call]
  ∧ db out.2 = db w
  ∧ ∀ url, s3_client e call = Returned url →
      out.1 = Json 200 (UploadUrl url key).
Proof.
  intros Hc Hf Ht. unfold get_upload_url. rewrite Hc, Hf, Ht. simpl.
  split_and!; [by destruct (s3_client e _)..|].
  by intros url ->.
Qed.

(** The handler at lines 130-131.  When the presign request raises a
    [ClientError], the route answers 500 with [{'error': str(e)}]; the
    database is untouched and the presign request is the only call that
    was made. *)
Lemma upload_grant_rejected e (data : gmap string json) w msg :
  (∀ Bucket Key ContentType,
     s3_client e (generate_presigned_url "put_object" Bucket Key
                    ContentType 300) = ClientError msg) →
  let out := get_upload_url e (JObj data) w in
  out.1 = Json 500 (Error msg)
  ∧ status_code out.1 = 500
  ∧ db out.2 = db w
  ∧ ∃ Key ContentType,
      s3_calls out.2
      = s3_calls w ++ [generate_presigned_url "put_object" S3_BUCKET Key
                         ContentType 300].
Proof.
  intros Hs3. unfold get_upload_url. rewrite Hs3. simpl.
  split_and!; [done..|]. by eexists _, _.
Qed.

(** C10 (defaults).  A field missing from the body of an upload
    request is read as its default: the route behaves exactly as if
    ["file"], ["application/octet-stream"] or ["unknown"] had been sent
    for [fileName], [fileType] or [clientId].  No lookup can fail: the
    only exception that leaves the route is one raised by the S3
    client.  For the empty object the key is
    [clients/unknown/{token}_file]. *)
Theorem upload_defaults e (data : gmap string json) w :
  (data !! "fileName" = None →
     get_upload_url e (JObj data) w
     = get_upload_url e (JObj (<["fileName" := JStr "file"]> data)) w)
  ∧ (data !! "fileType" = None →
     get_upload_url e (JObj data) w
     = get_upload_url e
         (JObj (<["fileType" := JStr "application/octet-stream"]> data)) w)
  ∧ (data !! "clientId" = None →
     get_upload_url e (JObj data) w
     = get_upload_url e (JObj (<["clientId" := JStr "unknown"]> data)) w)
  ∧ (∀ ex, (get_upload_url e (JObj data) w).1 = Unhandled ex →
       ∃ msg, ex = BotoCoreError msg)
  ∧ (let key := "clients/unknown/" +:+ uuid4 e +:+ "_file" in
     let call := generate_presigned_url "put_object" S3_BUCKET key
                   (JStr "application/octet-stream") 300 in
     s3_calls (get_upload_url e (JObj ∅) w).2 = s3_calls w ++ [call]
     ∧ ∀ url, s3_client e call = Returned url →
         (get_upload_url e (JObj ∅) w).1 = Json 200 (UploadUrl url key)).
Proof.
  split_and!.
  - intros H. unfold get_upload_url.
    rewrite lookup_insert_eq, !lookup_insert_ne, H by done. done.
  - intros H. unfold get_upload_url.
    rewrite lookup_insert_eq, !lookup_insert_ne, H by done. done.
  - intros H. unfold get_upload_url.
    rewrite lookup_insert_eq, !lookup_insert_ne, H by done. done.
  - intros ex. unfold get_upload_url.
    destruct (s3_client e _); simpl; intros [= <-]. by eexists.
  - unfold get_upload_url. rewrite !lookup_empty.
    split; [by destruct (s3_client e _)|]. intros url Hurl.
    match goal with
    | |- context [s3_client e ?c] =>
      replace (s3_client e c) with (Returned url) by (symmetry; exact Hurl)
    end.
    done.
Qed.

(** ** [get_clients] *)

Lemma created_at_desc_trans : Transitive created_at_desc.
Proof. unfold created_at_desc. intros a b c. lia. Qed.

Lemma created_at_desc_total : Total created_at_desc.
Proof. unfold created_at_desc. intros a b. lia. Qed.

(** C8 (ordering).  [get_clients] answers 200 with the dict of every
    stored client, each exactly once, most recently created first:
    every client in the list was created no earlier than those after
    it.  Three clients created at [t1 < t2 < t3] come back in the order
    [t3, t2, t1].  Each dict carries the pictures of its client in full:
    every row of [client_pictures] that refers to the client is shown,
    every picture shown is such a row, with its id, key, file name, file
    type and the URL [https://{bucket}.s3.amazonaws.com/{key}], and the
    pictures come in the order of the table, none of them twice. *)
Theorem get_clients_newest_first w :
  ∃ cs,
    get_clients w = (Json 200 (ClientList (Client_to_dict (db w) <$> cs)), w)
    ∧ cs ≡ₚ clients (db w)
    ∧ StronglySorted (λ a b, Client.created_at b ≤ Client.created_at a) cs
    ∧ (∀ c1 c2 c3,
         clients (db w) ≡ₚ [c1; c2; c3] →
         Client.created_at c1 < Client.created_at c2 →
         Client.created_at c2 < Client.created_at c3 →
         cs = [c3; c2; c1])
    ∧ Forall (λ c,
        let pds := ClientDict.pictures (Client_to_dict (db w) c) in
        (∀ p, p ∈ client_pictures (db w) →
           ClientPicture.client_id p = Client.id c →
           ∃ pd, pd ∈ pds
                 ∧ PictureDict.id pd = ClientPicture.id p
                 ∧ PictureDict.s3_key pd = ClientPicture.s3_key p)
        ∧ (∀ pd, pd ∈ pds →
           ∃ p, p ∈ client_pictures (db w)
                ∧ ClientPicture.client_id p = Client.id c
                ∧ PictureDict.id pd = ClientPicture.id p
                ∧ PictureDict.s3_key pd = ClientPicture.s3_key p
                ∧ PictureDict.file_name pd = ClientPicture.file_name p
                ∧ PictureDict.file_type pd = ClientPicture.file_type p
                ∧ PictureDict.url pd
                  = "https://" +:+ py_str (nullable S3_BUCKET)
                      +:+ ".s3.amazonaws.com/" +:+ ClientPicture.s3_key p)
        ∧ (PictureDict.id <$> pds)
            `sublist_of` (ClientPicture.id <$> client_pictures (db w))) cs.
Proof.
  exists (merge_sort created_at_desc (clients (db w))).
  pose proof (merge_sort_Permutation created_at_desc (clients (db w))) as Hperm.
  pose proof (@StronglySorted_merge_sort _ created_at_desc _
    created_at_desc_trans created_at_desc_total (clients (db w))) as Hsorted.
  split_and!; try done.
  - intros c1 c2 c3 H123 H12 H23.
    apply (StronglySorted_unique_strong created_at_desc); [|done| |].
    + intros x1 x2 Hx1 Hx2 Hle Hge. unfold created_at_desc in Hle, Hge.
      rewrite Hperm, H123 in Hx1.
      repeat match goal with
             | H : _ ∈ _ :: _ |- _ => apply elem_of_cons in H as [->|H]
             | H : _ ∈ [] |- _ => by apply elem_of_nil in H
             end; first [done | lia].
    + unfold created_at_desc.
      repeat first [apply SSorted_cons | apply SSorted_nil | apply Forall_cons
                   | apply Forall_nil | split]; lia.
    + rewrite Hperm, H123. apply (Permutation_rev [c1; c2; c3]).
  - apply Forall_forall. intros c _. simpl. split_and!.
    + intros p Hp Hfk. exists (ClientPicture_to_dict p). split; [|done].
      apply list_elem_of_fmap. exists p. split; [done|].
      by apply list_elem_of_filter.
    + intros pd (p & -> & [Hfk Hp]%list_elem_of_filter)%list_elem_of_fmap.
      by exists p.
    + rewrite <-list_fmap_compose. apply fmap_sublist, sublist_filter.
Qed.

(** * Further properties of the routes *)

(** ** Rows, in full *)

Lemma String_fits n v v' : String_ n v = Ok v' → v' = v ∧ fits n v.
Proof.
  destruct v as [s|]; simpl; [case_decide|]; intros [= <-];
    (split; [done|]); intros s' [= <-]; done.
Qed.

Lemma column_not_null_fits n v s :
  String_ n v ≫= not_null = Ok s → v = Some s ∧ (String.length s ≤ n)%nat.
Proof.
  intros H. apply bind_Ok in H as (v' & [-> Hfits]%String_fits & H).
  apply not_null_Ok in H as ->. split; [done | by apply Hfits].
Qed.

(** Every column of an inserted client is the value that was bound, and
    fits its declared width. *)
Lemma insert_client_row t o d c d' :
  insert_client t o d = Ok (c, d') →
  bind_param (Client.o_first_name o) = Ok (Some (Client.first_name c))
  ∧ bind_param (Client.o_last_name o) = Ok (Some (Client.last_name c))
  ∧ bind_param (Client.o_email o) = Ok (Some (Client.email c))
  ∧ bind_param (Client.o_phone o) = Ok (Client.phone c)
  ∧ bind_param (Client.o_dob o) = Ok (Client.dob c)
  ∧ bind_param (Client.o_notes o) = Ok (Client.notes c)
  ∧ client_fits c.
Proof.
  unfold insert_client. intros H.
  apply bind_Ok in H as (p_client_id & _ & H).
  apply bind_Ok in H as (p_first_name & E2 & H).
  apply bind_Ok in H as (p_last_name & E3 & H).
  apply bind_Ok in H as (p_email & E4 & H).
  apply bind_Ok in H as (p_phone & E5 & H).
  apply bind_Ok in H as (p_dob & E6 & H).
  do 5 (apply bind_Ok in H as (? & _ & H)).
  apply bind_Ok in H as (p_notes & E12 & H).
  apply bind_Ok in H as (c1 & [-> F1]%column_not_null_fits & H).
  apply bind_Ok in H as (c2 & [-> F2]%column_not_null_fits & H).
  apply bind_Ok in H as (c3 & [-> F3]%column_not_null_fits & H).
  apply bind_Ok in H as (c4 & [-> F4]%column_not_null_fits & H).
  apply bind_Ok in H as (c5 & [-> F5]%String_fits & H).
  apply bind_Ok in H as (c6 & [-> F6]%String_fits & H).
  apply bind_Ok in H as (c7 & [-> F7]%String_fits & H).
  apply bind_Ok in H as (c8 & [-> F8]%String_fits & H).
  apply bind_Ok in H as (c9 & [-> F9]%String_fits & H).
  apply bind_Ok in H as (c10 & [-> F10]%String_fits & H).
  apply bind_Ok in H as (c11 & [-> F11]%String_fits & H).
  case_decide; [done|]. injection H as <- <-.
  unfold client_fits. simpl. split_and!; done.
Qed.

(** An inserted picture takes the next primary key and fits its
    columns. *)
Lemma insert_picture_row t o d d' :
  insert_picture t o d = Ok d' →
  ∃ p,
    ClientPicture.id p = pictures_next_id d
    ∧ ClientPicture.client_id p = ClientPicture.o_client_id o
    ∧ (ClientPicture.o_client_id o ∈ Client.id <$> clients d)
    ∧ bind_param (ClientPicture.o_file_name o) = Ok (ClientPicture.file_name p)
    ∧ bind_param (ClientPicture.o_file_type o) = Ok (ClientPicture.file_type p)
    ∧ picture_fits p
    ∧ d' = {| clients := clients d;
              client_pictures := client_pictures d ++ [p];
              clients_next_id := clients_next_id d;
              pictures_next_id := pictures_next_id d + 1 |}.
Proof.
  unfold insert_picture. intros H.
  apply bind_Ok in H as (p_key & _ & H).
  apply bind_Ok in H as (p_name & E2 & H).
  apply bind_Ok in H as (p_type & E3 & H).
  apply bind_Ok in H as (c1 & [-> F1]%column_not_null_fits & H).
  apply bind_Ok in H as (c2 & [-> F2]%String_fits & H).
  apply bind_Ok in H as (c3 & [-> F3]%String_fits & H).
  case_decide as Hfk; [|done]. injection H as <-.
  eexists; split_and!; last reflexivity; done.
Qed.

Lemma insert_pictures_rows t os d d' :
  insert_pictures t os d = Ok d' →
  ∃ ps,
    ClientPicture.id <$> ps = seqZ (pictures_next_id d) (Z.of_nat (length os))
    ∧ Forall2 (λ o p,
        ClientPicture.client_id p = ClientPicture.o_client_id o
        ∧ (ClientPicture.o_client_id o ∈ Client.id <$> clients d)
        ∧ bind_param (ClientPicture.o_file_name o)
          = Ok (ClientPicture.file_name p)
        ∧ bind_param (ClientPicture.o_file_type o)
          = Ok (ClientPicture.file_type p)
        ∧ picture_fits p) os ps
    ∧ client_pictures d' = client_pictures d ++ ps
    ∧ pictures_next_id d' = pictures_next_id d + Z.of_nat (length os).
Proof.
  revert d. induction os as [|o os IH]; simpl; intros d H.
  - injection H as <-. exists []. rewrite app_nil_r.
    split_and!; [done | constructor | done | lia].
  - apply bind_Ok in H as (d1 & (p & Hid & Hc & Hin & Hn & Ht & Hf & ->)
      %insert_picture_row & H).
    apply IH in H as (ps & Hids & HF & Hp & Hnext); simpl in *.
    exists (p :: ps). split_and!.
    + rewrite Nat2Z.inj_succ, seqZ_cons, fmap_cons, Hid, Hids by lia.
      do 2 f_equal; lia.
    + by constructor.
    + by rewrite Hp, <-app_assoc.
    + lia.
Qed.

(** Everything a 201 of [create_client] wrote. *)
Lemma create_client_rows e data w r w' :
  create_client e data w = (r, w') → status_code r = 201 →
  ∃ d c ps,
    data = JObj d
    ∧ r = Json 201 (Registered "Client registered" (Client.client_id c)
                      (Client.id c))
    ∧ s3_calls w' = s3_calls w
    ∧ clients (db w') = clients (db w) ++ [c]
    ∧ client_pictures (db w') = client_pictures (db w) ++ ps
    ∧ clients_next_id (db w') = clients_next_id (db w) + 1
    ∧ pictures_next_id (db w')
      = pictures_next_id (db w) + Z.of_nat (length ps)
    ∧ Client.id c = clients_next_id (db w)
    ∧ Client.created_at c = utcnow e
    ∧ (Client.client_id c ∉ Client.client_id <$> clients (db w))
    ∧ bind_param (d !! "clientId") = Ok (Some (Client.client_id c))
    ∧ bind_param (d !! "firstName") = Ok (Some (Client.first_name c))
    ∧ bind_param (d !! "lastName") = Ok (Some (Client.last_name c))
    ∧ bind_param (d !! "email") = Ok (Some (Client.email c))
    ∧ bind_param (d !! "phone") = Ok (Client.phone c)
    ∧ bind_param (d !! "dob") = Ok (Client.dob c)
    ∧ bind_param (d !! "notes") = Ok (Client.notes c)
    ∧ ClientPicture.id <$> ps
      = seqZ (pictures_next_id (db w)) (Z.of_nat (length ps))
    ∧ Forall (λ p, ClientPicture.client_id p = Client.id c) ps
    ∧ client_fits c
    ∧ Forall picture_fits ps.
Proof.
  unfold create_client. intros H Hr.
  destruct (create_client_session e data (db w)) as [[r0 d0]|ex] eqn:E;
    injection H as <- <-; [|done].
  destruct data as [| | |d]; try done. exists d.
  unfold create_client_session in E.
  apply bind_Ok in E as (clientId & [= <-] & E).
  apply bind_Ok in E as (existing & _ & E).
  destruct existing; [by injection E as <- <-|].
  apply bind_Ok in E as (address & _ & E).
  apply bind_Ok in E as (firstName & [= <-] & E).
  apply bind_Ok in E as (lastName & [= <-] & E).
  apply bind_Ok in E as (email & [= <-] & E).
  apply bind_Ok in E as (phone & [= <-] & E).
  apply bind_Ok in E as (dob & [= <-] & E).
  do 5 (apply bind_Ok in E as (? & _ & E)).
  apply bind_Ok in E as (notes & [= <-] & E).
  apply bind_Ok in E as ([c d1] & Hins & E).
  apply bind_Ok in E as (pictures & _ & E).
  apply bind_Ok in E as (pics & _ & E).
  apply bind_Ok in E as (objs & Hobjs%picture_objs_Ok & E).
  apply bind_Ok in E as (d2 & Hd2 & E).
  injection E as <- <-.
  pose proof (insert_client_row _ _ _ _ _ Hins)
    as (R1 & R2 & R3 & R4 & R5 & R6 & Rfits).
  apply insert_client_Ok in Hins as (Hcid & Hfresh & Hid & Hat & ->).
  pose proof (insert_pictures_Ok _ _ _ _ Hd2) as (ps0 & _ & Hcl & Hps0 & Hnext).
  apply insert_pictures_rows in Hd2 as (ps & Hids & HF & Hps & Hpn).
  simpl in *.
  assert (length objs = length ps) as Hlen by by eapply Forall2_length.
  exists c, ps. rewrite <-Hlen.
  split_and!; try done.
  - clear -Hobjs HF. revert ps HF.
    induction Hobjs as [|pic o pics objs [_ Ho] _ IH]; intros ps HF;
      inversion HF as [|? p ? ps' (Hc & _) HF']; subst; constructor;
      [congruence | by apply IH].
  - clear -HF. induction HF as [|o p os ps (_ & _ & _ & _ & Hf) _ IH];
      by constructor.
Qed.

(** ** Keys and widths are kept *)

Lemma create_client_outcome e data w r w' :
  create_client e data w = (r, w') →
  (status_code r ≠ 201 ∧ w' = w) ∨ status_code r = 201.
Proof.
  intros [(_ & ? & ?)|(c & ? & ? & ? & -> & _)]%create_client_cases;
    [by left | by right].
Qed.

Lemma create_client_keys_ok e data w r w' :
  db_ok (db w) → keys_ok (db w) →
  create_client e data w = (r, w') → keys_ok (db w').
Proof.
  intros [_ Hids _] [Hcpk Hppk Hpid Href] H.
  destruct (create_client_outcome _ _ _ _ _ H) as [[_ ->]|H201]; [done|].
  destruct (create_client_rows _ _ _ _ _ H H201) as (d & c & ps & _ & _ & _
    & Hc & Hp & _ & Hpn & Hid & _ & _ & _ & _ & _ & _ & _ & _ & _ & Hpids
    & Hown & _).
  split; rewrite ?Hc, ?Hp, ?Hpn, ?fmap_app.
  - apply NoDup_app. split_and!; [done| |apply NoDup_singleton].
    intros i (c' & -> & Hc')%list_elem_of_fmap [Hi|[]%elem_of_nil]%elem_of_cons.
    rewrite Forall_forall in Hids. specialize (Hids c' Hc'). lia.
  - apply NoDup_app. split_and!; [done| |rewrite Hpids; apply NoDup_seqZ].
    intros i (p & -> & Hp')%list_elem_of_fmap. rewrite Hpids.
    intros ?%elem_of_seqZ.
    rewrite Forall_forall in Hpid. specialize (Hpid p Hp'). lia.
  - apply Forall_app. split.
    + eapply Forall_impl; [exact Hpid|]. simpl. lia.
    + apply Forall_forall. intros p Hp'.
      assert (ClientPicture.id p ∈ ClientPicture.id <$> ps) as Hin
        by (apply list_elem_of_fmap; by exists p).
      rewrite Hpids in Hin. apply elem_of_seqZ in Hin. lia.
  - apply Forall_app. split.
    + eapply Forall_impl; [exact Href|]. simpl. intros p Hp'.
      apply elem_of_app. by left.
    + eapply Forall_impl; [exact Hown|]. simpl. intros p ->.
      apply elem_of_app. right. by apply list_elem_of_singleton.
Qed.

Lemma delete_cascade_keys_ok c d : keys_ok d → keys_ok (delete_cascade c d).
Proof.
  intros [Hcpk Hppk Hpid Href]. split; simpl.
  - eapply sublist_NoDup; [exact Hcpk|]. apply fmap_sublist, sublist_filter.
  - eapply sublist_NoDup; [exact Hppk|]. apply fmap_sublist, sublist_filter.
  - by apply Forall_filtered.
  - apply Forall_forall. intros p [Hp Hin]%list_elem_of_filter.
    rewrite Forall_forall in Href.
    pose proof (Href p Hin) as (c' & Hc' & Hin')%list_elem_of_fmap.
    apply list_elem_of_fmap. exists c'. split; [done|].
    apply list_elem_of_filter. split; [|done].
    intros Heq. destruct Hp. apply list_elem_of_fmap. exists p.
    split; [done|]. apply list_elem_of_filter. split; [congruence | done].
Qed.

Lemma reachable_keys w : reachable w → keys_ok (db w).
Proof.
  induction 1 as [|e r w Hw IH].
  { split; simpl; constructor. }
  pose proof (reachable_ok w Hw) as Hok.
  destruct r as [data|data| |client_id|client_id]; simpl.
  - unfold get_upload_url. destruct data; try done.
    by destruct (s3_client e _).
  - destruct (create_client e data w) as [r w'] eqn:E.
    by eapply create_client_keys_ok.
  - done.
  - unfold get_client. destruct (url_segment _); [|done].
    simpl. by destruct (list_find _ _) as [[]|].
  - unfold delete_client. destruct (url_segment _); [|done].
    simpl. destruct (list_find _ _) as [[i c]|]; [|done].
    simpl. destruct (delete_files e _) as [calls [ex|]]; simpl; [done|].
    by apply delete_cascade_keys_ok.
Qed.

(** X1 (keys).  In every state the service can be in, no two clients
    share a surrogate id, no two pictures share one, every picture id is
    below the counter, and every picture row refers to a stored
    client. *)
Theorem reachable_keys_ok w :
  reachable w →
  NoDup (Client.id <$> clients (db w))
  ∧ NoDup (ClientPicture.id <$> client_pictures (db w))
  ∧ Forall (λ p, ClientPicture.id p < pictures_next_id (db w))
      (client_pictures (db w))
  ∧ Forall (λ p, ∃ c, c ∈ clients (db w)
                      ∧ ClientPicture.client_id p = Client.id c)
      (client_pictures (db w)).
Proof.
  intros [Hcpk Hppk Hpid Href]%reachable_keys. split_and!; try done.
  eapply Forall_impl; [exact Href|]. simpl.
  intros p (c & ? & ?)%list_elem_of_fmap. by exists c.
Qed.

(** ** Reading and deleting *)

(** X3 (lookup).  [get_client] never changes the world.  For an
    identifier its rule matches it answers 200, with the dict of a
    stored client carrying the identifier, when the identifier is
    stored, and 404 when it is not.  An identifier that is empty or
    contains [/] reaches no view, stored or not: the router answers by
    itself. *)
Theorem get_client_found_or_404 s w :
  (url_segment s = true →
   s ∈ Client.client_id <$> clients (db w) →
   ∃ c, c ∈ clients (db w) ∧ Client.client_id c = s
        ∧ get_client s w
          = (Json 200 (ClientOne (Client_to_dict (db w) c)), w))
  ∧ (url_segment s = true →
     (s ∉ Client.client_id <$> clients (db w)) →
     get_client s w = (Abort 404, w))
  ∧ (url_segment s = false → get_client s w = (Abort (no_rule s), w)).
Proof.
  split_and!.
  - intros Hseg (c & Hs & Hc)%list_elem_of_fmap.
    destruct (filter_by_client_id_found s c (db w)) as (c' & Hfind & ? & ?);
      [done..|].
    exists c'. unfold get_client. by rewrite Hseg, Hfind.
  - apply get_client_absent.
  - apply get_client_no_rule.
Qed.

(** X4 (deleting nothing).  [delete_client] for an identifier that is
    not stored deletes no row and makes no S3 call.  The answer is the
    404 of [first_or_404] when the rule matches the identifier; a path
    the rule does not match gets the answer of the router, which is 404
    as well unless the router redirects. *)
Theorem delete_client_unknown e s w :
  (s ∉ Client.client_id <$> clients (db w)) →
  delete_client e s w
  = (Abort (if url_segment s then 404 else no_rule s), w).
Proof.
  intros Hs. unfold delete_client. destruct (url_segment s); [|done].
  by rewrite filter_by_client_id_absent.
Qed.

Lemma delete_files_calls e pics calls r :
  delete_files e pics = (calls, r) →
  calls `prefix_of`
    (λ pic, delete_object S3_BUCKET (ClientPicture.s3_key pic)) <$> pics
  ∧ (r = None →
     calls = (λ pic, delete_object S3_BUCKET (ClientPicture.s3_key pic))
               <$> pics).
Proof.
  revert calls r. induction pics as [|pic pics IH]; simpl; intros calls r.
  { intros [= <- <-]. done. }
  destruct (delete_files e pics) as [calls' r'].
  destruct (IH calls' r' eq_refl) as [Hpre Hall].
  destruct (s3_client e _); intros [= <- <-].
  - split; [by apply prefix_cons | intros ->; by rewrite Hall].
  - split; [by apply prefix_cons | intros ->; by rewrite Hall].
  - split; [|done]. apply prefix_cons, prefix_nil.
Qed.

Lemma delete_files_raised e pics calls ex :
  delete_files e pics = (calls, Some ex) → calls ≠ [].
Proof.
  destruct pics as [|pic pics]; simpl; [done|].
  destruct (delete_files e pics) as [calls' r'].
  by destruct (s3_client e _); intros [= <- ?].
Qed.

(** X5 (object cleanup).  When [delete_client] answers 200 it has
    called [delete_object] once per picture of the client, in row order,
    each on the configured bucket with the key of the row, and nothing
    else; the answer is [{'message': 'Client {id} deleted'}]. *)
Theorem delete_client_s3_calls e s w b w' :
  delete_client e s w = (Json 200 b, w') →
  ∃ c,
    c ∈ clients (db w) ∧ Client.client_id c = s
    ∧ b = Message ("Client " +:+ s +:+ " deleted")
    ∧ s3_calls w'
      = s3_calls w
        ++ ((λ pic, delete_object S3_BUCKET (ClientPicture.s3_key pic))
              <$> pictures_of c (db w)).
Proof.
  unfold delete_client, filter_by_client_id.
  destruct (url_segment s) eqn:Hseg; [|done]. simpl.
  destruct (list_find _ _) as [[i c]|] eqn:Hfind; simpl; [|done].
  apply list_find_Some in Hfind as (Hc%list_elem_of_lookup_2 & Hs & _).
  destruct (delete_files e _) as [calls [ex|]] eqn:Hcalls; [done|].
  intros [= <- <-]. exists c. simpl.
  apply delete_files_calls in Hcalls as [_ ->]; done.
Qed.

(** X6 (interrupted cleanup).  When an exception leaves
    [delete_client], no row has been deleted, but the S3 calls made
    before it stand: they are the [delete_object] calls for a prefix of
    the client's pictures. *)
Theorem delete_client_interrupted e s w ex w' :
  delete_client e s w = (Unhandled ex, w') →
  db w' = db w
  ∧ ∃ c calls,
      c ∈ clients (db w) ∧ Client.client_id c = s
      ∧ s3_calls w' = s3_calls w ++ calls
      ∧ calls ≠ []
      ∧ calls `prefix_of`
          (λ pic, delete_object S3_BUCKET (ClientPicture.s3_key pic))
            <$> pictures_of c (db w).
Proof.
  unfold delete_client, filter_by_client_id.
  destruct (url_segment s) eqn:Hseg; [|done]. simpl.
  destruct (list_find _ _) as [[i c]|] eqn:Hfind; simpl; [|done].
  apply list_find_Some in Hfind as (Hc%list_elem_of_lookup_2 & Hs & _).
  destruct (delete_files e _) as [calls [ex'|]] eqn:Hcalls; [|done].
  intros [= <- <-]. split; [done|]. exists c, calls. simpl.
  split_and!; try done.
  - by eapply delete_files_raised.
  - by apply delete_files_calls in Hcalls as [? _].
Qed.

(** ** How registering and deleting compose *)

Lemma list_find_filter {A} (P Q : A → Prop)
    `{!∀ x, Decision (P x), !∀ x, Decision (Q x)} (l : list A) i x :
  list_find P l = Some (i, x) → Q x →
  ∃ j, list_find P (filter Q l) = Some (j, x).
Proof.
  revert i. induction l as [|a l IH]; intros i; simpl; [done|].
  case_decide as HPa.
  - intros [= _ ->] HQ. rewrite filter_cons, decide_True by done.
    simpl. rewrite decide_True by done. by eexists.
  - destruct (list_find P l) as [[i' x']|] eqn:E; simpl; [|done].
    intros [= _ ->] HQ. destruct (IH i' eq_refl HQ) as [j Hj].
    rewrite filter_cons. case_decide.
    + simpl. rewrite decide_False, Hj by done. by eexists.
    + by eexists.
Qed.

Lemma filter_filter_absorb {A} (P Q : A → Prop)
    `{!∀ x, Decision (P x), !∀ x, Decision (Q x)} (l : list A) :
  (∀ x, x ∈ l → P x → Q x) → filter P (filter Q l) = filter P l.
Proof.
  induction l as [|a l IH]; intros Himp; [done|].
  assert (filter P (filter Q l) = filter P l) as IH'.
  { apply IH. intros x Hx. apply Himp. by right. }
  rewrite (filter_cons Q). case_decide as HQ.
  - by rewrite !filter_cons, IH'.
  - rewrite IH', filter_cons, decide_False; [done|].
    intros HP. apply HQ, Himp; [by left | done].
Qed.

Lemma filter_all {A} (P : A → Prop) `{!∀ x, Decision (P x)} (l : list A) :
  Forall P l → filter P l = l.
Proof.
  induction 1 as [|x l Hx _ IH]; [done|].
  by rewrite filter_cons, decide_True, IH.
Qed.

Lemma filter_none {A} (P : A → Prop) `{!∀ x, Decision (P x)} (l : list A) :
  Forall (λ x, ¬ P x) l → filter P l = [].
Proof.
  induction 1 as [|x l Hx _ IH]; [done|].
  by rewrite filter_cons, decide_False, IH.
Qed.

(** The pictures of another client survive a cascade. *)
Lemma pictures_of_delete_cascade c c' d :
  keys_ok d → Client.id c' ≠ Client.id c →
  pictures_of c' (delete_cascade c d) = pictures_of c' d.
Proof.
  intros [_ Hppk _ _] Hne. unfold pictures_of. simpl.
  apply filter_filter_absorb. intros p Hp Hfk
    (q & Hq & [Hqc Hqin]%list_elem_of_filter)%list_elem_of_fmap.
  assert (p = q) as -> by by eapply NoDup_fmap_elem.
  congruence.
Qed.

(** X7 (frame of a deletion).  Deleting one client, in a state the
    service can be in, changes the answer of [get_client] for no other
    identifier: the other clients and their pictures are untouched. *)
Theorem delete_client_frame e s w b w' s' :
  reachable w →
  delete_client e s w = (Json 200 b, w') →
  s' ≠ s →
  (get_client s' w').1 = (get_client s' w).1.
Proof.
  intros Hw Hdel Hne.
  pose proof (reachable_keys w Hw) as Hkeys.
  pose proof Hkeys as [Hcpk Hppk Hpid Href].
  revert Hdel. unfold delete_client, filter_by_client_id.
  destruct (url_segment s) eqn:Hseg; [|done]. simpl.
  destruct (list_find _ _) as [[i c]|] eqn:Hfind; simpl; [|done].
  apply list_find_Some in Hfind as (Hc%list_elem_of_lookup_2 & Hs & _).
  destruct (delete_files e _) as [calls [ex|]]; [done|].
  intros [= <- <-]. unfold get_client, filter_by_client_id.
  destruct (url_segment s'); [|done]. simpl.
  destruct (list_find _ (clients (db w))) as [[j c']|] eqn:Hfind'; simpl.
  - pose proof Hfind' as (Hc'%list_elem_of_lookup_2 & Hs' & _)%list_find_Some.
    assert (Client.id c' ≠ Client.id c) as Hid.
    { intros Heq. apply Hne. rewrite <-Hs, <-Hs'. f_equal.
      by eapply (NoDup_fmap_elem Client.id). }
    destruct (list_find_filter _ (λ c', Client.id c' ≠ Client.id c) _ _ _
                Hfind' Hid) as [k ->]. simpl.
    unfold Client_to_dict. by rewrite pictures_of_delete_cascade.
  - apply list_find_None in Hfind'.
    destruct (list_find _ (filter _ _)) as [[k c']|] eqn:Hfind''; [|done].
    apply list_find_Some in Hfind'' as (Hin%list_elem_of_lookup_2 & Hs' & _).
    apply list_elem_of_filter in Hin as [_ Hin].
    rewrite Forall_forall in Hfind'. by destruct (Hfind' c' Hin).
Qed.

(** X8 (register, then delete).  Registering a client and then
    deleting it, in a state the service can be in, leaves the rows of
    both tables exactly as they were before the registration; only the
    counters have moved on. *)
Theorem create_then_delete e data w msg s id w1 e' b w2 :
  reachable w →
  create_client e data w = (Json 201 (Registered msg s id), w1) →
  delete_client e' s w1 = (Json 200 b, w2) →
  clients (db w2) = clients (db w)
  ∧ client_pictures (db w2) = client_pictures (db w)
  ∧ clients_next_id (db w2) = clients_next_id (db w) + 1
  ∧ pictures_next_id (db w) ≤ pictures_next_id (db w2).
Proof.
  intros Hw Hcreate.
  pose proof (reachable_ok w Hw) as [Hu Hids Hfk].
  pose proof (reachable_keys w Hw) as [_ _ Hpid _].
  assert (db_ok (db w)) as Hok by by split.
  destruct (create_client_rows _ _ _ _ _ Hcreate eq_refl) as (d & c & ps & _
    & [= -> -> ->] & _ & Hc & Hp & Hcn & Hpn & Hid & _ & Hfresh & _ & _ & _
    & _ & _ & _ & _ & Hpids & Hown & _).
  unfold delete_client. destruct (url_segment _); [|done].
  rewrite (filter_by_client_id_last _ c _ (clients (db w))) by done.
  destruct (delete_files e' _) as [calls [ex|]]; [done|].
  intros [= _ <-]. simpl.
  rewrite (pictures_of_created c (db w) (db w1) ps) by done.
  rewrite Hc, Hp, Hcn, Hpn, !filter_app. split_and!; [| |done|lia].
  - rewrite (filter_cons _ c), decide_False by (by intros []). simpl.
    rewrite app_nil_r. apply filter_all.
    eapply Forall_impl; [exact Hids|]. simpl. lia.
  - rewrite (filter_none _ ps), app_nil_r.
    + apply filter_all. eapply Forall_impl; [exact Hpid|]. simpl.
      intros p Hlt. rewrite Hpids. intros ?%elem_of_seqZ. lia.
    + apply Forall_forall. intros p Hin Hout. apply Hout.
      apply list_elem_of_fmap. by exists p.
Qed.

(** ** What [create_client] accepts *)

(** The three kinds of answer of [create_client]. *)
Lemma create_client_answers e data w r w' :
  create_client e data w = (r, w') →
  r = Json 409 (Error "Client ID already exists")
  ∨ status_code r = 201
  ∨ ∃ ex, r = Unhandled ex.
Proof.
  unfold create_client. intros H.
  destruct (create_client_session e data (db w)) as [[r0 d]|ex] eqn:E;
    injection H as <- <-; [|by right; right; eexists].
  apply create_client_session_Ok in E as [[-> _]|(c & ? & ? & ? & -> & _)];
    [by left | by right; left].
Qed.

Lemma create_client_409_stored e data w :
  (create_client e data w).1 = Json 409 (Error "Client ID already exists") →
  ∃ s, py_get data "clientId" ≫= bind_param = Ok (Some s)
       ∧ s ∈ Client.client_id <$> clients (db w).
Proof.
  - unfold create_client.
    destruct (create_client_session e data (db w)) as [[r0 d]|ex] eqn:E;
      simpl; [intros ->|done].
    unfold create_client_session in E.
    apply bind_Ok in E as (clientId & HclientId & E).
    apply bind_Ok in E as (existing & Hexisting & E).
    destruct existing as [c0|].
    + unfold filter_by_client_id in Hexisting.
      apply bind_Ok in Hexisting as (p & Hp & Hfind).
      destruct p as [s|]; [|done].
      exists s. split; [by rewrite HclientId|].
      injection Hfind as Hfind.
      destruct (list_find _ _) as [[i c]|] eqn:Hf; [|done].
      apply list_find_Some in Hf as (Hc%list_elem_of_lookup_2 & Hs & _).
      apply list_elem_of_fmap. by exists c.
    + exfalso. do 12 (apply bind_Ok in E as (? & _ & E)).
      apply bind_Ok in E as ([c d1] & _ & E).
      do 4 (apply bind_Ok in E as (? & _ & E)). done.
Qed.

(** X9 (conflict).  A registration whose [clientId] is a string is
    answered 409 exactly when a stored client carries that string: no
    other field, and no other stored client, can make it a duplicate. *)
Theorem create_client_conflict_iff e (data : gmap string json) w s :
  data !! "clientId" = Some (JStr s) →
  (create_client e (JObj data) w).1
  = Json 409 (Error "Client ID already exists")
  ↔ s ∈ Client.client_id <$> clients (db w).
Proof.
  intros Hs. split.
  - intros (s' & Hget & Hin)%create_client_409_stored.
    simpl in Hget. rewrite Hs in Hget. by injection Hget as ->.
  - intros Hin. rewrite (create_client_duplicate e (JObj data) w s); [done| |done].
    simpl. by rewrite Hs.
Qed.

(** X10 (required fields).  A body in which [clientId], [firstName],
    [lastName] or [email] is missing or [null] registers nothing: the
    world is left as it was and the answer is an unhandled exception
    (status 500), or the 409 of a known [clientId]. *)
Theorem create_client_required e (data : gmap string json) w k :
  k ∈ ["clientId"; "firstName"; "lastName"; "email"] →
  bind_param (data !! k) = Ok None →
  let out := create_client e (JObj data) w in
  out.2 = w
  ∧ (status_code out.1 = 500
     ∨ out.1 = Json 409 (Error "Client ID already exists")).
Proof.
  intros Hk Hnull out. subst out.
  destruct (create_client e (JObj data) w) as [r w'] eqn:E. simpl.
  assert (status_code r ≠ 201) as Hr.
  { intros H201.
    destruct (create_client_rows _ _ _ _ _ E H201) as (d & c & ps & [= <-]
      & _ & _ & _ & _ & _ & _ & _ & _ & _ & H1 & H2 & H3 & H4 & _).
    repeat (apply elem_of_cons in Hk as [->|Hk]);
      [rewrite H1 in Hnull | rewrite H2 in Hnull | rewrite H3 in Hnull
      | rewrite H4 in Hnull | by apply elem_of_nil in Hk]; done. }
  destruct (create_client_outcome _ _ _ _ _ E) as [[_ ->]|?]; [|done].
  split; [done|].
  destruct (create_client_answers _ _ _ _ _ E) as [->|[?|[ex ->]]];
    [by right | done | by left].
Qed.

(** X11 (one bad descriptor).  If one element of the [pictures] array
    is not an object, or is an object whose [key] is missing or [null],
    nothing is registered: neither the client nor any of the other
    pictures. *)
Theorem create_client_bad_descriptor e (data : gmap string json) w pics pic :
  data !! "pictures" = Some (JArr pics) →
  pic ∈ pics →
  (∀ m, pic = JObj m → m !! "key" = None ∨ m !! "key" = Some JNull) →
  let out := create_client e (JObj data) w in
  out.2 = w ∧ status_code out.1 ≠ 201.
Proof.
  intros Hpics Hpic Hkey out. subst out.
  destruct (create_client e (JObj data) w) as [r w'] eqn:E. simpl.
  apply create_client_cases in E as [(_ & Hr & ->)|(c & address & pics'
    & ps & -> & _ & _ & _ & _ & _ & _ & _ & _ & _ & _ & _ & Hiter & HF & _)];
    [done|].
  exfalso. simpl in Hiter. rewrite Hpics in Hiter. injection Hiter as <-.
  clear -Hpic Hkey HF.
  induction HF as [|x p l ps [Hx _] _ IH]; [by apply elem_of_nil in Hpic|].
  apply elem_of_cons in Hpic as [->|Hpic]; [|by apply IH].
  destruct x as [| | |m]; try done.
  simpl in Hx. by destruct (Hkey m eq_refl) as [Hm|Hm]; rewrite Hm in Hx.
Qed.

(** X12 (address that is not an object).  When the [address] of a
    registration is present but is not an object ([null], a string, an
    array), the route raises [AttributeError] and writes nothing. *)
Theorem create_client_address_not_object e (data : gmap string json) w s v :
  data !! "clientId" = Some (JStr s) →
  (s ∉ Client.client_id <$> clients (db w)) →
  data !! "address" = Some v →
  (∀ m, v ≠ JObj m) →
  create_client e (JObj data) w = (Unhandled AttributeError, w).
Proof.
  intros Hs Hfree Hv Hobj. unfold create_client, create_client_session.
  simpl. rewrite Hs, filter_by_client_id_absent by done. simpl.
  rewrite Hv. simpl. destruct v; try done. by destruct (Hobj m).
Qed.

(** X13 (an identifier is free again).  Once [delete_client] answered
    200 for an identifier, in a state the service can be in, a
    registration under that identifier is not refused as a duplicate. *)
Theorem delete_frees_identifier e s w b w' e' (data : gmap string json) :
  reachable w →
  delete_client e s w = (Json 200 b, w') →
  data !! "clientId" = Some (JStr s) →
  (create_client e' (JObj data) w').1
  ≠ Json 409 (Error "Client ID already exists").
Proof.
  intros [Hu _ _]%reachable_ok Hdel Hs (s' & Hget & Hin)%create_client_409_stored.
  simpl in Hget. rewrite Hs in Hget. injection Hget as <-.
  revert Hdel Hin. unfold delete_client, filter_by_client_id.
  destruct (url_segment s) eqn:Hseg; [|done]. simpl.
  destruct (list_find _ _) as [[i c]|] eqn:Hfind; simpl; [|done].
  apply list_find_Some in Hfind as (Hc%list_elem_of_lookup_2 & Hcs & _).
  destruct (delete_files e _) as [calls [ex|]]; [done|].
  intros [= <- <-]. simpl.
  intros (c' & Hs' & [Hne Hc']%list_elem_of_filter)%list_elem_of_fmap.
  apply Hne. f_equal.
  apply (NoDup_fmap_elem Client.client_id (clients (db w))); congruence.
Qed.

(** X14 (optional parts).  A registration without [address] and
    without [pictures] that is accepted stores a client whose five
    address fields are [null] and who has no picture; this is what
    [get_client] returns for an identifier its rule matches. *)
Theorem create_client_bare e (data : gmap string json) w msg s id w' :
  reachable w →
  data !! "address" = None →
  data !! "pictures" = None →
  create_client e (JObj data) w = (Json 201 (Registered msg s id), w') →
  url_segment s = true →
  ∃ cd,
    get_client s w' = (Json 200 (ClientOne cd), w')
    ∧ ClientDict.address cd
      = JObj {[ "street" := JNull; "city" := JNull; "state" := JNull;
                "zip" := JNull; "country" := JNull ]}
    ∧ ClientDict.pictures cd = []
    ∧ client_pictures (db w') = client_pictures (db w).
Proof.
  intros Hw%reachable_ok Haddr Hpics H Hseg.
  apply create_client_cases in H as [(_ & Hr & _)|(c & address & pics & ps
    & [= -> -> ->] & _ & _ & Hfresh & Hid & _ & Ha & H1 & H2 & H3 & H4 & H5
    & Hiter & HF & Hc & Hp)]; [done|].
  simpl in Ha, Hiter. rewrite Haddr in Ha. rewrite Hpics in Hiter.
  injection Ha as <-. injection Hiter as <-.
  inversion HF; subst. rewrite app_nil_r in Hp.
  exists (Client_to_dict (db w') c). split_and!; [| | |done].
  - by apply (get_client_last _ c _ (clients (db w))).
  - simpl in *. rewrite lookup_empty in H1, H2, H3, H4, H5. simpl in *.
    by injection H1 as <-; injection H2 as <-; injection H3 as <-;
       injection H4 as <-; injection H5 as <-.
  - simpl. rewrite (pictures_of_created c (db w) (db w') []); try done.
    by rewrite Hp, app_nil_r.
Qed.

(** X15 (the whole record).  A client that was registered under an
    identifier the rule of [get_client] matches is returned by
    [get_client] with the [id] the 201 announced and with the
    identifier, name, e-mail, phone, date of birth and notes that were
    sent, each as the database read it. *)
Theorem create_client_round_trip e (data : gmap string json) w msg s id w' :
  reachable w →
  create_client e (JObj data) w = (Json 201 (Registered msg s id), w') →
  url_segment s = true →
  ∃ cd,
    get_client s w' = (Json 200 (ClientOne cd), w')
    ∧ ClientDict.id cd = id
    ∧ ClientDict.client_id cd = s
    ∧ bind_param (data !! "clientId") = Ok (Some s)
    ∧ bind_param (data !! "firstName") = Ok (Some (ClientDict.first_name cd))
    ∧ bind_param (data !! "lastName") = Ok (Some (ClientDict.last_name cd))
    ∧ bind_param (data !! "email") = Ok (Some (ClientDict.email cd))
    ∧ bind_param (data !! "phone") = Ok (ClientDict.phone cd)
    ∧ bind_param (data !! "dob") = Ok (ClientDict.dob cd)
    ∧ bind_param (data !! "notes") = Ok (ClientDict.notes cd)
    ∧ ClientDict.created_at cd = isoformat (utcnow e).
Proof.
  intros Hw H Hseg.
  destruct (create_client_rows _ _ _ _ _ H eq_refl) as (d & c & ps & [= <-]
    & [= -> -> ->] & _ & Hc & _ & _ & _ & _ & Hat & Hfresh & R0 & R1 & R2
    & R3 & R4 & R5 & R6 & _).
  exists (Client_to_dict (db w') c). split_and!; try done.
  - by apply (get_client_last _ c _ (clients (db w))).
  - simpl. by rewrite Hat.
Qed.

(** X16 (fresh ids).  The [id] a registration announces is the next
    value of the counter: it is larger than the id of every stored
    client, and the client is stored under an identifier that was
    free. *)
Theorem create_client_fresh e data w msg s id w' :
  reachable w →
  create_client e data w = (Json 201 (Registered msg s id), w') →
  id = clients_next_id (db w)
  ∧ Forall (λ c, Client.id c < id) (clients (db w))
  ∧ (s ∉ Client.client_id <$> clients (db w))
  ∧ s ∈ Client.client_id <$> clients (db w').
Proof.
  intros [_ Hids _]%reachable_ok H.
  destruct (create_client_rows _ _ _ _ _ H eq_refl) as (d & c & ps & _
    & [= -> -> ->] & _ & Hc & _ & _ & _ & Hid & _ & Hfresh & _).
  rewrite Hid, Hc, fmap_app. split_and!; try done.
  apply elem_of_app. right. by apply list_elem_of_singleton.
Qed.

(** ** What the routes never do *)

(** X17 (frame of the routes).  Only [create_client] and
    [delete_client] can change the database, and only [get_upload_url]
    and [delete_client] call S3: in particular a registration never
    asks S3 whether the objects it refers to exist. *)
Theorem routes_frame e r w :
  (reads_only r → db (handle e r w).2 = db w)
  ∧ (makes_no_s3_call r → s3_calls (handle e r w).2 = s3_calls w).
Proof.
  destruct r as [data|data| |client_id|client_id]; simpl; split; try done.
  - intros _. unfold get_upload_url. destruct data; try done.
    by destruct (s3_client e _).
  - intros _. unfold create_client.
    by destruct (create_client_session e data (db w)) as [[??]|].
  - intros _. unfold get_client. destruct (url_segment _); [|done].
    by destruct (filter_by_client_id _ _) as [[?|]|].
  - intros _. unfold get_client. destruct (url_segment _); [|done].
    by destruct (filter_by_client_id _ _) as [[?|]|].
Qed.

(** ** [get_upload_url], once more *)

(** X18 (null is not missing).  A field of an upload request that is
    present with value [null] is not replaced by its default: the key
    is built from the text [None], and [null] is what S3 is given as
    content type. *)
Theorem upload_null_not_defaulted e (data : gmap string json) w :
  data !! "fileName" = Some JNull →
  data !! "fileType" = Some JNull →
  data !! "clientId" = Some JNull →
  s3_calls (get_upload_url e (JObj data) w).2
  = s3_calls w ++ [generate_presigned_url "put_object" S3_BUCKET
                     ("clients/None/" +:+ uuid4 e +:+ "_None") JNull 300].
Proof.
  intros Hn Ht Hc. unfold get_upload_url. rewrite Hn, Ht, Hc. simpl.
  by destruct (s3_client e _).
Qed.

(** X19 (bodies that are not objects).  An upload request or a
    registration whose body is not a JSON object raises
    [AttributeError]: the answer is 500 and nothing happens, not even
    an S3 call. *)
Theorem body_not_object e data w :
  (∀ m, data ≠ JObj m) →
  get_upload_url e data w = (Unhandled AttributeError, w)
  ∧ create_client e data w = (Unhandled AttributeError, w).
Proof.
  intros Hobj. destruct data; try done. by destruct (Hobj m).
Qed.

(** ** The list and the single record agree *)

(** X20 (list and detail).  In a state the service can be in, the list
    of [get_clients] has one entry per stored client.  A listed dict
    whose identifier the rule of [get_client] matches is the dict
    [get_client] returns for that identifier; a listed client whose
    identifier is empty or contains [/] cannot be fetched: the router
    answers by itself. *)
Theorem get_clients_agrees_with_get_client w cds :
  reachable w →
  get_clients w = (Json 200 (ClientList cds), w) →
  length cds = length (clients (db w))
  ∧ Forall (λ cd,
      get_client (ClientDict.client_id cd) w
      = if url_segment (ClientDict.client_id cd)
        then (Json 200 (ClientOne cd), w)
        else (Abort (no_rule (ClientDict.client_id cd)), w))
      cds.
Proof.
  intros [Hu _ _]%reachable_ok. unfold get_clients. intros [= <-].
  pose proof (merge_sort_Permutation created_at_desc (clients (db w)))
    as Hperm.
  split; [by rewrite length_fmap, Hperm|].
  apply Forall_fmap, Forall_forall. intros c Hc. rewrite Hperm in Hc. simpl.
  destruct (filter_by_client_id_found (Client.client_id c) c (db w))
    as (c' & Hfind & Hc' & Heq); [done..|].
  unfold get_client. destruct (url_segment _); [|done]. rewrite Hfind.
  by rewrite (NoDup_fmap_elem Client.client_id (clients (db w)) c' c).
Qed.

(** X21 (pictures that cannot be walked).  A registration whose
    [pictures] is [null], or a non-empty string, registers nothing: the
    loop raises ([TypeError] on [None], [AttributeError] on a
    character) after the client was flushed, and the session is rolled
    back.  An empty string is walked like an empty array. *)
Theorem create_client_pictures_not_array e (data : gmap string json) w v :
  data !! "pictures" = Some v →
  v = JNull ∨ (∃ c s, v = JStr (String c s)) →
  let out := create_client e (JObj data) w in
  out.2 = w ∧ status_code out.1 ≠ 201.
Proof.
  intros Hv Hbad out. subst out.
  destruct (create_client e (JObj data) w) as [r w'] eqn:E. simpl.
  apply create_client_cases in E as [(_ & Hr & ->)|(c & address & pics'
    & ps & -> & _ & _ & _ & _ & _ & _ & _ & _ & _ & _ & _ & Hiter & HF & _)];
    [done|].
  exfalso. simpl in Hiter. rewrite Hv in Hiter.
  destruct Hbad as [->|(a & s & ->)]; [done|].
  injection Hiter as <-. by inversion HF as [|???? [? _]].
Qed.


(** ** The pictures of a registration *)

Lemma picture_objs_fields client_id pics objs :
  picture_objs client_id pics = Ok objs →
  Forall2 (λ pic o,
    py_get pic "key" = Ok (ClientPicture.o_s3_key o)
    ∧ py_get pic "fileName" = Ok (ClientPicture.o_file_name o)
    ∧ py_get pic "fileType" = Ok (ClientPicture.o_file_type o)) pics objs.
Proof.
  revert objs. induction pics as [|pic pics IH]; simpl; intros objs H.
  - injection H as <-. constructor.
  - apply bind_Ok in H as (key & Hkey & H).
    apply bind_Ok in H as (fileName & Hname & H).
    apply bind_Ok in H as (fileType & Htype & H).
    apply bind_Ok in H as (objs' & Hobjs & H).
    injection H as <-. constructor; [done | by apply IH].
Qed.

Lemma create_client_picture_rows e data w r w' :
  create_client e data w = (r, w') → status_code r = 201 →
  ∃ pics ps,
    (default (JArr []) <$> py_get data "pictures") ≫= py_iter = Ok pics
    ∧ client_pictures (db w') = client_pictures (db w) ++ ps
    ∧ Forall2 (λ pic p,
        py_get pic "key" ≫= bind_param = Ok (Some (ClientPicture.s3_key p))
        ∧ py_get pic "fileName" ≫= bind_param
          = Ok (ClientPicture.file_name p)
        ∧ py_get pic "fileType" ≫= bind_param
          = Ok (ClientPicture.file_type p)) pics ps.
Proof.
  unfold create_client. intros H Hr.
  destruct (create_client_session e data (db w)) as [[r0 d0]|ex] eqn:E;
    injection H as <- <-; [|done].
  unfold create_client_session in E.
  apply bind_Ok in E as (clientId & _ & E).
  apply bind_Ok in E as (existing & _ & E).
  destruct existing; [by injection E as <- <-|].
  do 12 (apply bind_Ok in E as (? & _ & E)).
  apply bind_Ok in E as ([c d1] & Hins & E).
  apply bind_Ok in E as (pictures & Hpictures & E).
  apply bind_Ok in E as (pics & Hpics & E).
  apply bind_Ok in E as (objs & Hobjs%picture_objs_fields & E).
  apply bind_Ok in E as (d2 & Hd2 & E).
  injection E as <- <-.
  apply insert_client_Ok in Hins as (_ & _ & _ & _ & ->).
  pose proof (insert_pictures_Ok _ _ _ _ Hd2) as (ps0 & HF0 & _ & Hps0 & _).
  apply insert_pictures_rows in Hd2 as (ps & _ & HF & Hps & _).
  assert (ps0 = ps) as -> by (eapply app_inv_head; by rewrite <-Hps0, <-Hps).
  simpl in *. exists pics, ps. split_and!; [|done|].
  - rewrite Hpictures. exact Hpics.
  - clear -Hobjs HF0 HF. revert ps HF0 HF.
    induction Hobjs as [|pic o pics objs (Hk & Hn & Ht) _ IH]; intros ps HF0 HF;
      inversion HF0 as [|? p ? ps' (Hkey & _) HF0']; subst;
      inversion HF as [|? ? ? ? (_ & _ & Hname & Htype & _) HF']; subst;
      constructor; [|by apply IH].
    rewrite Hk, Hn, Ht. cbn [mbind result_bind]. done.
Qed.

(** X22 (the pictures of a registration).  A client that was registered
    under an identifier the rule of [get_client] matches is returned by
    [get_client] with one picture per descriptor sent, in the order
    sent: each carries the [key], [fileName] and [fileType] of its
    descriptor as the database read them, a [url] built from the
    configured bucket and the key, and the next ids of the picture
    counter. *)
Theorem create_client_pictures_round_trip e data w msg s id w' :
  reachable w →
  create_client e data w = (Json 201 (Registered msg s id), w') →
  url_segment s = true →
  ∃ pics cd,
    (default (JArr []) <$> py_get data "pictures") ≫= py_iter = Ok pics
    ∧ get_client s w' = (Json 200 (ClientOne cd), w')
    ∧ PictureDict.id <$> ClientDict.pictures cd
      = seqZ (pictures_next_id (db w)) (Z.of_nat (length pics))
    ∧ Forall2 (λ pic pd,
        py_get pic "key" ≫= bind_param = Ok (Some (PictureDict.s3_key pd))
        ∧ py_get pic "fileName" ≫= bind_param
          = Ok (PictureDict.file_name pd)
        ∧ py_get pic "fileType" ≫= bind_param
          = Ok (PictureDict.file_type pd)
        ∧ PictureDict.url pd
          = "https://" +:+ py_str (nullable S3_BUCKET)
              +:+ ".s3.amazonaws.com/" +:+ PictureDict.s3_key pd)
        pics (ClientDict.pictures cd).
Proof.
  intros Hw%reachable_ok H Hseg.
  destruct (create_client_picture_rows _ _ _ _ _ H eq_refl)
    as (pics & ps & Hpics & Hp & HF).
  destruct (create_client_rows _ _ _ _ _ H eq_refl) as (d & c & ps' & _
    & [= -> -> ->] & _ & Hc & Hp' & _ & _ & Hid & _ & Hfresh & _ & _ & _ & _
    & _ & _ & _ & Hids & Hown & _).
  assert (ps' = ps) as -> by (eapply app_inv_head; by rewrite <-Hp', <-Hp).
  assert (length pics = length ps) as Hlen by by eapply Forall2_length.
  exists pics, (Client_to_dict (db w') c). split_and!; [done| | |].
  - by apply (get_client_last _ c _ (clients (db w))).
  - simpl. rewrite (pictures_of_created c (db w) (db w') ps) by done.
    rewrite <-list_fmap_compose, Hlen. exact Hids.
  - simpl. rewrite (pictures_of_created c (db w) (db w') ps) by done.
    apply Forall2_fmap_r. eapply Forall2_impl; [exact HF|].
    intros pic p (? & ? & ?). done.
Qed.


(** ** Rows over a run *)

(** One request leaves the client rows it finds, or drops some, or
    appends one under the next id; the counter never goes back. *)
Lemma handle_clients_step e r w :
  clients_next_id (db w) ≤ clients_next_id (db (handle e r w).2)
  ∧ ∀ c', c' ∈ clients (db (handle e r w).2) →
      c' ∈ clients (db w) ∨ Client.id c' = clients_next_id (db w).
Proof.
  destruct r as [data|data| |client_id|client_id]; simpl.
  - unfold get_upload_url. destruct data; simpl; try (split; [lia|by left]).
    destruct (s3_client e _); simpl; (split; [lia|by left]).
  - destruct (create_client e data w) as [r w'] eqn:E. simpl.
    destruct (create_client_outcome _ _ _ _ _ E) as [[_ ->]|H201].
    { split; [lia|by left]. }
    destruct (create_client_rows _ _ _ _ _ E H201) as (d & c & ps & _ & _ & _
      & Hc & _ & Hn & _ & Hid & _).
    rewrite Hc, Hn. split; [lia|].
    intros c' [Hin| ->%list_elem_of_singleton]%elem_of_app;
      [by left | by right].
  - split; [lia|by left].
  - unfold get_client. destruct (url_segment _); [|simpl; split; [lia|by left]].
    destruct (filter_by_client_id _ _) as [[c|]|ex]; simpl;
      (split; [lia|by left]).
  - unfold delete_client. destruct (url_segment _); [|simpl; split; [lia|by left]].
    destruct (filter_by_client_id _ _) as [[c|]|ex]; simpl;
      try (split; [lia|by left]).
    destruct (delete_files e _) as [calls [ex|]]; simpl;
      [split; [lia|by left]|].
    split; [lia|]. intros c' [_ Hin]%list_elem_of_filter. by left.
Qed.

Lemma serve_clients_step rs w :
  clients_next_id (db w) ≤ clients_next_id (db (serve rs w).2)
  ∧ ∀ c', c' ∈ clients (db (serve rs w).2) →
      c' ∈ clients (db w) ∨ clients_next_id (db w) ≤ Client.id c'.
Proof.
  revert w. induction rs as [|[e r] rs IH]; intros w; simpl.
  { split; [lia|by left]. }
  destruct (handle_clients_step e r w) as [Hn Hstep].
  destruct (handle e r w) as [resp w1]; simpl in *.
  destruct (IH w1) as [Hn1 Hrun].
  destruct (serve rs w1) as [resps w2]; simpl in *.
  split; [lia|].
  intros c' [[Hin| ->]%Hstep|Hge]%Hrun; [by left | right; lia | right; lia].
Qed.

(** X23 (rows are never rewritten).  No route updates a client: whatever
    requests are served from a state the service can be in, a client row
    that is found under the surrogate id of a row stored before is that
    very row, unchanged.  A surrogate id is never given to a second
    client, not even after a deletion. *)
Theorem stored_client_never_changes rs w c c' :
  reachable w →
  c ∈ clients (db w) →
  c' ∈ clients (db (serve rs w).2) →
  Client.id c' = Client.id c →
  c' = c.
Proof.
  intros Hw Hc Hc' Hid.
  pose proof (reachable_ok w Hw) as [_ Hids _].
  pose proof (reachable_keys w Hw) as [Hpk _ _ _].
  rewrite Forall_forall in Hids. specialize (Hids c Hc). simpl in Hids.
  destruct (serve_clients_step rs w) as [_ Hrun].
  destruct (Hrun c' Hc') as [Hin|Hge]; [|lia].
  by apply (NoDup_fmap_elem Client.id (clients (db w))).
Qed.


(** X24 (the objects a deletion removes).  Deleting a client that was
    registered in a state the service can be in asks S3 to delete
    exactly the keys its registration named, in the order sent, on the
    configured bucket: the keys are taken as the database read them,
    whatever prefix they carry. *)
Theorem registered_keys_deleted e data w msg s id w1 e' b w2 :
  reachable w →
  create_client e data w = (Json 201 (Registered msg s id), w1) →
  delete_client e' s w1 = (Json 200 b, w2) →
  ∃ pics keys,
    (default (JArr []) <$> py_get data "pictures") ≫= py_iter = Ok pics
    ∧ Forall2 (λ pic key, py_get pic "key" ≫= bind_param = Ok (Some key))
        pics keys
    ∧ s3_calls w2 = s3_calls w ++ (delete_object S3_BUCKET <$> keys).
Proof.
  intros Hw%reachable_ok Hcreate.
  destruct (create_client_picture_rows _ _ _ _ _ Hcreate eq_refl)
    as (pics & ps & Hpics & Hp & HF).
  destruct (create_client_rows _ _ _ _ _ Hcreate eq_refl) as (d & c & ps' & _
    & [= -> -> ->] & Hcalls & Hc & Hp' & _ & _ & Hid & _ & Hfresh & _ & _ & _
    & _ & _ & _ & _ & _ & Hown & _).
  assert (ps' = ps) as -> by (eapply app_inv_head; by rewrite <-Hp', <-Hp).
  unfold delete_client. destruct (url_segment _); [|done].
  rewrite (filter_by_client_id_last _ c _ (clients (db w))) by done.
  rewrite (pictures_of_created c (db w) (db w1) ps) by done.
  destruct (delete_files e' ps) as [calls [ex|]] eqn:Hdel; [done|].
  intros [= _ <-]. simpl.
  apply delete_files_calls in Hdel as [_ ->]; [|done].
  exists pics, (ClientPicture.s3_key <$> ps). split_and!; [done| |].
  - apply Forall2_fmap_r. eapply Forall2_impl; [exact HF|].
    by intros pic p (? & _).
  - by rewrite Hcalls, <-list_fmap_compose.
Qed.


(** ** Clients the rule leaves out *)

Lemma handle_keeps_unroutable e r w c :
  reachable w →
  c ∈ clients (db w) → url_segment (Client.client_id c) = false →
  c ∈ clients (db (handle e r w).2).
Proof.
  intros Hw Hc Hseg.
  pose proof (reachable_keys w Hw) as [Hpk _ _ _].
  destruct r as [data|data| |client_id|client_id]; simpl.
  - unfold get_upload_url. destruct data; try done.
    by destruct (s3_client e _).
  - destruct (create_client e data w) as [r w'] eqn:E. simpl.
    destruct (create_client_outcome _ _ _ _ _ E) as [[_ ->]|H201]; [done|].
    destruct (create_client_rows _ _ _ _ _ E H201) as (d & c' & ps & _ & _ & _
      & -> & _).
    apply elem_of_app. by left.
  - done.
  - unfold get_client. destruct (url_segment client_id); [|done].
    by destruct (filter_by_client_id _ _) as [[?|]|].
  - unfold delete_client, filter_by_client_id.
    destruct (url_segment client_id) eqn:Hrule; [|done]. simpl.
    destruct (list_find _ _) as [[i c0]|] eqn:Hfind; simpl; [|done].
    apply list_find_Some in Hfind as (Hc0%list_elem_of_lookup_2 & Hs & _).
    destruct (delete_files e _) as [calls [ex|]]; simpl; [done|].
    apply list_elem_of_filter. split; [|done]. intros Hid.
    assert (c = c0) as -> by by apply (NoDup_fmap_elem Client.id (clients (db w))).
    congruence.
Qed.

(** X25 (clients that cannot be addressed).  A client stored under an
    identifier that is empty or contains [/] is out of reach of the two
    routes under ['/api/clients/<client_id>']: whatever requests are
    served from a state the service can be in, its row stays stored, and
    fetching or deleting it by its identifier reaches no view. *)
Theorem unroutable_client_stays rs w c :
  reachable w →
  c ∈ clients (db w) →
  url_segment (Client.client_id c) = false →
  let w' := (serve rs w).2 in
  c ∈ clients (db w')
  ∧ get_client (Client.client_id c) w'
    = (Abort (no_rule (Client.client_id c)), w')
  ∧ ∀ e, delete_client e (Client.client_id c) w'
         = (Abort (no_rule (Client.client_id c)), w').
Proof.
  intros Hw Hc Hseg w'. subst w'. split_and!.
  - revert w Hw Hc. induction rs as [|[e r] rs IH]; intros w Hw Hc; [done|].
    simpl.
    pose proof (handle_keeps_unroutable e r w c Hw Hc Hseg) as Hc1.
    pose proof (reachable_step e r w Hw) as Hw1.
    destruct (handle e r w) as [resp w1]; simpl in *.
    specialize (IH w1 Hw1 Hc1). by destruct (serve rs w1).
  - by apply get_client_no_rule.
  - intros e. unfold delete_client. by rewrite Hseg.
Qed.

End App.

(** * The claims on the sample data *)

Import Sample.

(** [registered_C123] is the world after the sample registration. *)
Lemma registered_C123_created :
  create_client (online 10 "a") (JObj (registration "C123")) init
  = (Json 201 (Registered "Client registered" "C123" 1), registered_C123).
Proof. by vm_compute. Qed.

Lemma registered_C123_reachable : reachable bucket repr iso router registered_C123.
Proof.
  pose proof (reachable_step bucket repr iso router (online 10 "a")
    (POST_clients (JObj (registration "C123"))) init
    (reachable_init _ _ _ _)) as H.
  simpl in H. by rewrite registered_C123_created in H.
Qed.

(** C4 (best-effort cleanup), on a sample: client [C123] owns two
    pictures and S3 cannot be reached.  The first [delete_object] raises
    an exception that is not a [ClientError]; it leaves the loop and the
    route, the answer is 500, and the client row and both picture rows
    are still stored. *)
Theorem delete_client_propagates_other_errors :
  let out := delete_client bucket router (offline 20 "b") "C123" registered_C123 in
  out.1 = Unhandled (BotoCoreError "Could not connect to the endpoint URL")
  ∧ status_code out.1 = 500
  ∧ db out.2 = db registered_C123
  ∧ Client.client_id <$> clients (db out.2) = ["C123"]
  ∧ ClientPicture.s3_key <$> client_pictures (db out.2)
    = ["clients/C123/a_photo.png"; "clients/C123/b_scan.png"]
  ∧ s3_calls out.2 = [delete_object bucket "clients/C123/a_photo.png"].
Proof. by vm_compute. Qed.

(** C1 on the sample: the same registration sent twice registers one
    client, and a third attempt is answered 409 without a write. *)
Lemma create_client_unique_witness :
  let calls := [(online 10 "a", JObj (registration "C123"));
                (online 11 "b", JObj (registration "C123"))] in
  let out := serve bucket repr iso router (prod_map id POST_clients <$> calls) init in
  reachable bucket repr iso router init
  ∧ py_get (JObj (registration "C123")) "clientId" = Ok (Some (JStr "C123"))
  ∧ "C123" ∈ Client.client_id <$> clients (db out.2)
  ∧ omap registered out.1 = ["C123"]
  ∧ NoDup (omap registered out.1)
  ∧ create_client (online 12 "c") (JObj (registration "C123")) out.2
    = (Json 409 (Error "Client ID already exists"), out.2).
Proof.
  intros calls out.
  assert (reachable bucket repr iso router init) as Hinit by apply reachable_init.
  assert (py_get (JObj (registration "C123")) "clientId"
          = Ok (Some (JStr "C123"))) as Hget by reflexivity.
  assert ("C123" ∈ Client.client_id <$> clients (db out.2)) as Hin
    by (apply (bool_decide_unpack _); vm_compute; exact I).
  destruct (create_client_unique bucket repr iso router calls init Hinit)
    as (Hnodup & _ & Hdup).
  destruct (Hdup (online 12 "c") (JObj (registration "C123")) "C123" Hget Hin)
    as [H409 _].
  split_and!; [exact Hinit | exact Hget | exact Hin | by vm_compute
              | exact Hnodup | exact H409].
Defined.

(** C2 on the sample: the registration is stored with its two pictures
    and read back with their two keys. *)
Lemma create_client_atomic_witness :
  reachable bucket repr iso router init
  ∧ create_client (online 10 "a") (JObj (registration "C123")) init
    = (Json 201 (Registered "Client registered" "C123" 1), registered_C123)
  ∧ url_segment "C123" = true
  ∧ ∃ cd,
      get_client bucket repr iso router "C123" registered_C123
      = (Json 200 (ClientOne cd), registered_C123)
      ∧ PictureDict.s3_key <$> ClientDict.pictures cd
        = ["clients/C123/a_photo.png"; "clients/C123/b_scan.png"].
Proof.
  assert (reachable bucket repr iso router init) as Hinit by apply reachable_init.
  assert (create_client (online 10 "a") (JObj (registration "C123")) init
          = (Json 201 (Registered "Client registered" "C123" 1),
             registered_C123)) as Hcreate by (vm_compute; reflexivity).
  split_and!; [exact Hinit | exact Hcreate | reflexivity |].
  destruct (create_client_atomic bucket repr iso router _ _ _ _ _ Hinit Hcreate)
    as [[Hne _]|(c & pics & ps & [= Hid Hn] & _ & _ & _ & _ & _ & Hget & _)].
  - by destruct Hne.
  - rewrite <-Hid in Hget. destruct (Hget eq_refl) as (cd & Hcd & _).
    exists cd. split; [exact Hcd|].
    revert Hcd. vm_compute. by intros [= <-].
Defined.

(** C2 fails where the rule of [get_client] does not match: the sample
    registration under the identifier [a/b] is accepted and stored with
    its two pictures, and fetching [a/b] answers 404. *)
Lemma create_client_atomic_counterexample :
  let out := create_client (online 10 "a") (JObj (registration "a/b")) init in
  out.1 = Json 201 (Registered "Client registered" "a/b" 1)
  ∧ Client.client_id <$> clients (db out.2) = ["a/b"]
  ∧ length (client_pictures (db out.2)) = 2%nat
  ∧ get_client bucket repr iso router "a/b" out.2 = (Abort 404, out.2).
Proof. by vm_compute. Qed.

(** C3 on the sample: once [C123] is deleted it is not found, and its
    two picture rows are gone. *)
Lemma delete_client_cascade_witness :
  let out := delete_client bucket router (online 20 "b") "C123" registered_C123 in
  reachable bucket repr iso router registered_C123
  ∧ out.1 = Json 200 (Message "Client C123 deleted")
  ∧ get_client bucket repr iso router "C123" out.2 = (Abort 404, out.2)
  ∧ status_code (get_client bucket repr iso router "C123" out.2).1 = 404
  ∧ client_pictures (db out.2) = [].
Proof.
  intros out.
  assert (delete_client bucket router (online 20 "b") "C123" registered_C123
          = (Json 200 (Message "Client C123 deleted"), out.2)) as Hdel
    by (vm_compute; reflexivity).
  destruct (delete_client_cascade bucket repr iso router _ _ _ _ _
              registered_C123_reachable Hdel)
    as (c & _ & _ & _ & H404 & _ & _).
  split_and!; [exact registered_C123_reachable | by vm_compute | exact H404
              | by rewrite H404 | by vm_compute].
Defined.



(** C6 on the sample. *)
Lemma upload_grant_request_witness :
  let out := get_upload_url bucket repr (online 1 "2f1c") (JObj upload) init in
  let call := generate_presigned_url "put_object" bucket
                "clients/C123/2f1c_photo.png" (JStr "image/png") 300 in
  upload !! "clientId" = Some (JStr "C123")
  ∧ upload !! "fileName" = Some (JStr "photo.png")
  ∧ upload !! "fileType" = Some (JStr "image/png")
  ∧ s3_calls out.2 = [call]
  ∧ db out.2 = empty_db
  ∧ out.1 = Json 200 (UploadUrl "https://clientvault.s3.amazonaws.com/signed"
                        "clients/C123/2f1c_photo.png").
Proof.
  intros out call.
  assert (upload !! "clientId" = Some (JStr "C123")) as Hc by reflexivity.
  assert (upload !! "fileName" = Some (JStr "photo.png")) as Hf
    by reflexivity.
  assert (upload !! "fileType" = Some (JStr "image/png")) as Ht
    by reflexivity.
  destruct (upload_grant_request bucket repr (online 1 "2f1c") upload init
              _ _ _ Hc Hf Ht) as (Hcalls & Hdb & Hurl).
  split_and!; [exact Hc | exact Hf | exact Ht | exact Hcalls | exact Hdb |].
  apply Hurl. reflexivity.
Defined.

(** C7 (grant refused), on a sample: boto3 finds no credentials to sign
    with.  [generate_presigned_url] raises [NoCredentialsError], which is
    not a [ClientError]: the handler at line 130 does not catch it, the
    exception leaves the route, and the answer is Flask's own 500, with
    no [{'error': ...}] body carrying the message of the provider.
    Nothing is written. *)
Theorem get_upload_url_propagates_other_errors :
  let out :=
    get_upload_url bucket repr (no_credentials 1 "2f1c") (JObj upload) init in
  out.1 = Unhandled (BotoCoreError "Unable to locate credentials")
  ∧ (∀ msg, out.1 ≠ Json 500 (Error msg))
  ∧ status_code out.1 = 500
  ∧ db out.2 = empty_db
  ∧ s3_calls out.2
    = [generate_presigned_url "put_object" bucket
         "clients/C123/2f1c_photo.png" (JStr "image/png") 300].
Proof. by vm_compute. Qed.

(** C9 on the sample: the address of §8 comes back as it was sent. *)
Lemma address_round_trip_witness :
  reachable bucket repr iso router init
  ∧ registration "C123" !! "address" = Some address
  ∧ create_client (online 10 "a") (JObj (registration "C123")) init
    = (Json 201 (Registered "Client registered" "C123" 1), registered_C123)
  ∧ url_segment "C123" = true
  ∧ ∃ cd,
      get_client bucket repr iso router "C123" registered_C123
      = (Json 200 (ClientOne cd), registered_C123)
      ∧ ClientDict.address cd = address.
Proof.
  assert (reachable bucket repr iso router init) as Hinit by apply reachable_init.
  assert (registration "C123" !! "address" = Some (JObj {[
            "street"  := nullable (Some "1 Main St");
            "city"    := nullable (Some "Springfield");
            "state"   := nullable (Some "IL");
            "zip"     := nullable (Some "62701");
            "country" := nullable (Some "US") ]})) as Haddr by reflexivity.
  assert (create_client (online 10 "a") (JObj (registration "C123")) init
          = (Json 201 (Registered "Client registered" "C123" 1),
             registered_C123)) as Hcreate by (vm_compute; reflexivity).
  destruct (address_round_trip bucket repr iso router _ _ _ _ _ _ _ _ _ _ _ _
              Hinit Haddr Hcreate) as (Hfetch & _).
  destruct (Hfetch eq_refl) as (cd & Hget & Hcd).
  split_and!; [exact Hinit | exact Haddr | exact Hcreate | reflexivity |].
  exists cd. split; [exact Hget|]. rewrite Haddr in Hcd. by injection Hcd.
Defined.

(** C9 fails where the rule of [get_client] does not match: the address
    of §8 registered under the identifier [a/b] is stored, and it cannot
    be read back, because fetching [a/b] answers 404. *)
Lemma address_round_trip_counterexample :
  let out := create_client (online 10 "a") (JObj (registration "a/b")) init in
  registration "a/b" !! "address" = Some address
  ∧ out.1 = Json 201 (Registered "Client registered" "a/b" 1)
  ∧ Client.street <$> clients (db out.2) = [Some "1 Main St"]
  ∧ (get_client bucket repr iso router "a/b" out.2).1 = Abort 404.
Proof. by vm_compute. Qed.

(** C10 on the sample: the empty object. *)
Lemma upload_defaults_witness :
  let e := online 1 "2f1c" in
  (∅ : gmap string json) !! "fileName" = None
  ∧ get_upload_url bucket repr e (JObj ∅) init
    = get_upload_url bucket repr e (JObj {[ "fileName" := JStr "file" ]}) init
  ∧ (get_upload_url bucket repr e (JObj ∅) init).1
    = Json 200 (UploadUrl "https://clientvault.s3.amazonaws.com/signed"
                  "clients/unknown/2f1c_file").
Proof.
  intros e.
  assert ((∅ : gmap string json) !! "fileName" = None) as Hnone
    by reflexivity.
  destruct (upload_defaults bucket repr e ∅ init)
    as (Hname & _ & _ & _ & _ & Hurl).
  split_and!; [exact Hnone | exact (Hname Hnone) |].
  apply Hurl. reflexivity.
Defined.

(** C8 on the sample: three clients created at times 100, 200 and 300
    are listed newest first, each with its own pictures: the third
    client with its one picture, the second with none, the first with
    its two. *)
Lemma get_clients_newest_first_witness :
  let c1 := client_row 1 "C1" 100 in
  let c2 := client_row 2 "C2" 200 in
  let c3 := client_row 3 "C3" 300 in
  let dict := Client_to_dict bucket repr iso (db three_clients) in
  clients (db three_clients) ≡ₚ [c1; c2; c3]
  ∧ 100 < 200 < 300
  ∧ get_clients bucket repr iso three_clients
    = (Json 200 (ClientList (dict <$> [c3; c2; c1])), three_clients)
  ∧ (∃ pd, pd ∈ ClientDict.pictures (dict c1)
           ∧ PictureDict.id pd = 3
           ∧ PictureDict.s3_key pd = "clients/C1/c_id.png")
  ∧ (λ cd, PictureDict.url <$> ClientDict.pictures cd)
      <$> (dict <$> [c3; c2; c1])
    = [["https://clientvault.s3.amazonaws.com/clients/C3/b_scan.png"];
       [];
       ["https://clientvault.s3.amazonaws.com/clients/C1/a_photo.png";
        "https://clientvault.s3.amazonaws.com/clients/C1/c_id.png"]].
Proof.
  intros c1 c2 c3 dict.
  assert (clients (db three_clients) ≡ₚ [c1; c2; c3]) as Hperm by reflexivity.
  destruct (get_clients_newest_first bucket repr iso three_clients)
    as (cs & Hget & _ & _ & Horder & Hpics).
  assert (cs = [c3; c2; c1]) as ->
    by (apply (Horder _ _ _ Hperm); simpl; lia).
  apply Forall_cons in Hpics as [_ Hpics].
  apply Forall_cons in Hpics as [_ Hpics].
  apply Forall_cons in Hpics as [(Hall & _ & _) _].
  split_and!; [exact Hperm | lia | lia | exact Hget | | reflexivity].
  apply (Hall (picture_row 3 1 "clients/C1/c_id.png")); [|reflexivity].
  simpl. do 2 right. left.
Defined.

(** * The further properties on the sample data *)

(** The world after [C456] registered as well. *)
Lemma registered_C456_reachable :
  reachable bucket repr iso router
    (create_client (online 11 "b") (JObj (registration "C456"))
       registered_C123).2.
Proof.
  apply (reachable_step bucket repr iso router (online 11 "b")
           (POST_clients (JObj (registration "C456"))) registered_C123).
  apply registered_C123_reachable.
Qed.

Lemma reachable_keys_ok_witness :
  reachable bucket repr iso router registered_C123
  ∧ NoDup (Client.id <$> clients (db registered_C123))
  ∧ NoDup (ClientPicture.id <$> client_pictures (db registered_C123)).
Proof.
  destruct (reachable_keys_ok bucket repr iso router registered_C123
              registered_C123_reachable) as (H1 & H2 & _).
  split_and!; [exact registered_C123_reachable | exact H1 | exact H2].
Defined.

Lemma get_client_found_or_404_witness :
  let stored_a_b :=
    (create_client (online 11 "b") (JObj (registration "a/b"))
       registered_C123).2 in
  (∃ c, c ∈ clients (db registered_C123) ∧ Client.client_id c = "C123"
        ∧ get_client bucket repr iso router "C123" registered_C123
          = (Json 200 (ClientOne (Client_to_dict bucket repr iso
                                    (db registered_C123) c)),
             registered_C123))
  ∧ get_client bucket repr iso router "C999" registered_C123
    = (Abort 404, registered_C123)
  ∧ "a/b" ∈ Client.client_id <$> clients (db stored_a_b)
  ∧ get_client bucket repr iso router "a/b" stored_a_b = (Abort 404, stored_a_b).
Proof.
  intros stored_a_b.
  assert ("C123" ∈ Client.client_id <$> clients (db registered_C123)) as Hin
    by (apply (bool_decide_unpack _); vm_compute; exact I).
  assert ("C999" ∉ Client.client_id <$> clients (db registered_C123)) as Hout
    by (apply (bool_decide_unpack _); vm_compute; exact I).
  assert ("a/b" ∈ Client.client_id <$> clients (db stored_a_b)) as Hab
    by (apply (bool_decide_unpack _); vm_compute; exact I).
  split_and!.
  - exact (proj1 (get_client_found_or_404 bucket repr iso router "C123"
                    registered_C123) eq_refl Hin).
  - exact (proj1 (proj2 (get_client_found_or_404 bucket repr iso router
                           "C999" registered_C123)) eq_refl Hout).
  - exact Hab.
  - exact (proj2 (proj2 (get_client_found_or_404 bucket repr iso router
                           "a/b" stored_a_b)) eq_refl).
Defined.

Lemma delete_client_unknown_witness :
  ("C999" ∉ Client.client_id <$> clients (db registered_C123))
  ∧ delete_client bucket router (online 20 "b") "C999" registered_C123
    = (Abort 404, registered_C123)
  ∧ ("/C123" ∉ Client.client_id <$> clients (db registered_C123))
  ∧ delete_client bucket router (online 20 "b") "/C123" registered_C123
    = (Abort 308, registered_C123).
Proof.
  assert ("C999" ∉ Client.client_id <$> clients (db registered_C123)) as Hs
    by (apply (bool_decide_unpack _); vm_compute; exact I).
  assert ("/C123" ∉ Client.client_id <$> clients (db registered_C123)) as Hs'
    by (apply (bool_decide_unpack _); vm_compute; exact I).
  split_and!; [exact Hs | | exact Hs' |].
  - exact (delete_client_unknown bucket router (online 20 "b") "C999"
             registered_C123 Hs).
  - exact (delete_client_unknown bucket router (online 20 "b") "/C123"
             registered_C123 Hs').
Defined.

Lemma delete_client_s3_calls_witness :
  let out := delete_client bucket router (refusing 20 "b") "C123" registered_C123 in
  out.1 = Json 200 (Message "Client C123 deleted")
  ∧ s3_calls out.2
    = [delete_object bucket "clients/C123/a_photo.png";
       delete_object bucket "clients/C123/b_scan.png"].
Proof.
  intros out.
  assert (delete_client bucket router (refusing 20 "b") "C123" registered_C123
          = (Json 200 (Message "Client C123 deleted"), out.2)) as Hdel
    by (vm_compute; reflexivity).
  destruct (delete_client_s3_calls bucket router _ _ _ _ _ Hdel)
    as (c & _ & _ & _ & _).
  split; by vm_compute.
Defined.

Lemma delete_client_interrupted_witness :
  let out := delete_client bucket router (offline 20 "b") "C123" registered_C123 in
  out.1 = Unhandled (BotoCoreError "Could not connect to the endpoint URL")
  ∧ db out.2 = db registered_C123.
Proof.
  intros out.
  assert (delete_client bucket router (offline 20 "b") "C123" registered_C123
          = (Unhandled (BotoCoreError "Could not connect to the endpoint URL"),
             out.2)) as Hdel by (vm_compute; reflexivity).
  destruct (delete_client_interrupted bucket router _ _ _ _ _ Hdel) as (Hdb & _).
  split; [by vm_compute | exact Hdb].
Defined.

Lemma delete_client_frame_witness :
  let w := (create_client (online 11 "b") (JObj (registration "C456"))
              registered_C123).2 in
  let out := delete_client bucket router (online 20 "c") "C123" w in
  reachable bucket repr iso router w
  ∧ out.1 = Json 200 (Message "Client C123 deleted")
  ∧ "C456" ≠ "C123"
  ∧ (get_client bucket repr iso router "C456" out.2).1
    = (get_client bucket repr iso router "C456" w).1.
Proof.
  intros w out.
  assert (delete_client bucket router (online 20 "c") "C123" w
          = (Json 200 (Message "Client C123 deleted"), out.2)) as Hdel
    by (vm_compute; reflexivity).
  assert ("C456" ≠ "C123") as Hne by discriminate.
  split_and!; [exact registered_C456_reachable | by vm_compute | exact Hne |].
  exact (delete_client_frame bucket repr iso router _ _ _ _ _ _
           registered_C456_reachable Hdel Hne).
Defined.

Lemma create_then_delete_witness :
  let w1 := (create_client (online 11 "b") (JObj (registration "C456"))
               registered_C123).2 in
  let w2 := (delete_client bucket router (online 20 "c") "C456" w1).2 in
  reachable bucket repr iso router registered_C123
  ∧ clients (db w2) = clients (db registered_C123)
  ∧ client_pictures (db w2) = client_pictures (db registered_C123).
Proof.
  intros w1 w2.
  assert (create_client (online 11 "b") (JObj (registration "C456"))
            registered_C123
          = (Json 201 (Registered "Client registered" "C456" 2), w1))
    as Hcreate by (vm_compute; reflexivity).
  assert (delete_client bucket router (online 20 "c") "C456" w1
          = (Json 200 (Message "Client C456 deleted"), w2)) as Hdel
    by (vm_compute; reflexivity).
  destruct (create_then_delete bucket repr iso router _ _ _ _ _ _ _ _ _ _
              registered_C123_reachable Hcreate Hdel) as (H1 & H2 & _).
  split_and!; [exact registered_C123_reachable | exact H1 | exact H2].
Defined.

Lemma create_client_conflict_iff_witness :
  registration "C123" !! "clientId" = Some (JStr "C123")
  ∧ "C123" ∈ Client.client_id <$> clients (db registered_C123)
  ∧ (create_client (online 12 "c") (JObj (registration "C123"))
       registered_C123).1
    = Json 409 (Error "Client ID already exists").
Proof.
  assert (registration "C123" !! "clientId" = Some (JStr "C123")) as Hs
    by reflexivity.
  assert ("C123" ∈ Client.client_id <$> clients (db registered_C123)) as Hin
    by (apply (bool_decide_unpack _); vm_compute; exact I).
  split_and!; [exact Hs | exact Hin |].
  exact (proj2 (create_client_conflict_iff (online 12 "c")
                  (registration "C123") registered_C123 "C123" Hs) Hin).
Defined.

Lemma create_client_required_witness :
  let data := delete "email" (registration "C9") in
  "email" ∈ ["clientId"; "firstName"; "lastName"; "email"]
  ∧ bind_param (data !! "email") = Ok None
  ∧ (create_client (online 12 "c") (JObj data) registered_C123).2
    = registered_C123
  ∧ status_code
      (create_client (online 12 "c") (JObj data) registered_C123).1 = 500.
Proof.
  intros data.
  assert ("email" ∈ ["clientId"; "firstName"; "lastName"; "email"]) as Hk
    by (apply (bool_decide_unpack _); vm_compute; exact I).
  assert (bind_param (data !! "email") = Ok None) as Hnull by reflexivity.
  destruct (create_client_required (online 12 "c") data registered_C123
              "email" Hk Hnull) as (Hw & _).
  split_and!; [exact Hk | exact Hnull | exact Hw | by vm_compute].
Defined.

Lemma create_client_bad_descriptor_witness :
  let pic := JObj {[ "fileName" := JStr "photo.png" ]} in
  let pics := [JObj {[ "key" := JStr "clients/C9/a_photo.png" ]}; pic] in
  let data := <["pictures" := JArr pics]> (registration "C9") in
  data !! "pictures" = Some (JArr pics)
  ∧ pic ∈ pics
  ∧ (create_client (online 12 "c") (JObj data) registered_C123).2
    = registered_C123.
Proof.
  intros pic pics data.
  assert (data !! "pictures" = Some (JArr pics)) as Hpics by reflexivity.
  assert (pic ∈ pics) as Hpic by (right; left).
  assert (∀ m, pic = JObj m → m !! "key" = None ∨ m !! "key" = Some JNull)
    as Hkey by (intros m [= <-]; by left).
  destruct (create_client_bad_descriptor (online 12 "c") data
              registered_C123 pics pic Hpics Hpic Hkey) as (Hw & _).
  split_and!; [exact Hpics | exact Hpic | exact Hw].
Defined.

Lemma create_client_address_not_object_witness :
  let data := <["address" := JNull]> (registration "C9") in
  data !! "clientId" = Some (JStr "C9")
  ∧ ("C9" ∉ Client.client_id <$> clients (db registered_C123))
  ∧ data !! "address" = Some JNull
  ∧ create_client (online 12 "c") (JObj data) registered_C123
    = (Unhandled AttributeError, registered_C123).
Proof.
  intros data.
  assert (data !! "clientId" = Some (JStr "C9")) as Hs by reflexivity.
  assert ("C9" ∉ Client.client_id <$> clients (db registered_C123)) as Hfree
    by (apply (bool_decide_unpack _); vm_compute; exact I).
  assert (data !! "address" = Some JNull) as Hv by reflexivity.
  assert (∀ m, JNull ≠ JObj m) as Hobj by discriminate.
  split_and!; [exact Hs | exact Hfree | exact Hv |].
  exact (create_client_address_not_object (online 12 "c") data
           registered_C123 "C9" JNull Hs Hfree Hv Hobj).
Defined.

Lemma delete_frees_identifier_witness :
  let out := delete_client bucket router (online 20 "b") "C123" registered_C123 in
  reachable bucket repr iso router registered_C123
  ∧ out.1 = Json 200 (Message "Client C123 deleted")
  ∧ registration "C123" !! "clientId" = Some (JStr "C123")
  ∧ (create_client (online 21 "c") (JObj (registration "C123")) out.2).1
    = Json 201 (Registered "Client registered" "C123" 2).
Proof.
  intros out.
  assert (delete_client bucket router (online 20 "b") "C123" registered_C123
          = (Json 200 (Message "Client C123 deleted"), out.2)) as Hdel
    by (vm_compute; reflexivity).
  assert (registration "C123" !! "clientId" = Some (JStr "C123")) as Hs
    by reflexivity.
  pose proof (delete_frees_identifier bucket repr iso router _ _ _ _ _
    (online 21 "c") _ registered_C123_reachable Hdel Hs) as Hfree.
  split_and!; [exact registered_C123_reachable | by vm_compute | exact Hs
              | by vm_compute].
Defined.

Lemma create_client_bare_witness :
  let data := delete "address" (delete "pictures" (registration "C9")) in
  let out := create_client (online 12 "c") (JObj data) registered_C123 in
  reachable bucket repr iso router registered_C123
  ∧ data !! "address" = None
  ∧ data !! "pictures" = None
  ∧ out.1 = Json 201 (Registered "Client registered" "C9" 2)
  ∧ url_segment "C9" = true
  ∧ ∃ cd,
      get_client bucket repr iso router "C9" out.2 = (Json 200 (ClientOne cd), out.2)
      ∧ ClientDict.pictures cd = [].
Proof.
  intros data out.
  assert (data !! "address" = None) as Haddr by reflexivity.
  assert (data !! "pictures" = None) as Hpics by reflexivity.
  assert (create_client (online 12 "c") (JObj data) registered_C123
          = (Json 201 (Registered "Client registered" "C9" 2), out.2))
    as Hcreate by (vm_compute; reflexivity).
  destruct (create_client_bare bucket repr iso router _ _ _ _ _ _ _
              registered_C123_reachable Haddr Hpics Hcreate eq_refl)
    as (cd & Hget & _ & Hnone & _).
  split_and!; [exact registered_C123_reachable | exact Haddr | exact Hpics
              | by vm_compute | reflexivity |].
  exists cd. split; [exact Hget | exact Hnone].
Defined.

Lemma create_client_round_trip_witness :
  reachable bucket repr iso router init
  ∧ create_client (online 10 "a") (JObj (registration "C123")) init
    = (Json 201 (Registered "Client registered" "C123" 1), registered_C123)
  ∧ url_segment "C123" = true
  ∧ ∃ cd,
      get_client bucket repr iso router "C123" registered_C123
      = (Json 200 (ClientOne cd), registered_C123)
      ∧ ClientDict.id cd = 1
      ∧ ClientDict.first_name cd = "Ada".
Proof.
  assert (reachable bucket repr iso router init) as Hinit by apply reachable_init.
  assert (create_client (online 10 "a") (JObj (registration "C123")) init
          = (Json 201 (Registered "Client registered" "C123" 1),
             registered_C123)) as Hcreate by (vm_compute; reflexivity).
  destruct (create_client_round_trip bucket repr iso router _ _ _ _ _ _ _
              Hinit Hcreate eq_refl) as (cd & Hget & Hid & _ & _ & Hfirst & _).
  split_and!; [exact Hinit | exact Hcreate | reflexivity |].
  exists cd. split_and!; [exact Hget | exact Hid |].
  by injection Hfirst as <-.
Defined.

Lemma create_client_fresh_witness :
  let out := create_client (online 11 "b") (JObj (registration "C456"))
               registered_C123 in
  reachable bucket repr iso router registered_C123
  ∧ out.1 = Json 201 (Registered "Client registered" "C456" 2)
  ∧ Forall (λ c, Client.id c < 2) (clients (db registered_C123)).
Proof.
  intros out.
  assert (create_client (online 11 "b") (JObj (registration "C456"))
            registered_C123
          = (Json 201 (Registered "Client registered" "C456" 2), out.2))
    as Hcreate by (vm_compute; reflexivity).
  destruct (create_client_fresh bucket repr iso router _ _ _ _ _ _ _
              registered_C123_reachable Hcreate) as (_ & Hlt & _).
  split_and!; [exact registered_C123_reachable | by vm_compute | exact Hlt].
Defined.

Lemma routes_frame_witness :
  reads_only (GET_client "C123")
  ∧ db (handle bucket repr iso router (online 30 "d") (GET_client "C123")
          registered_C123).2 = db registered_C123
  ∧ makes_no_s3_call (POST_clients (JObj (registration "C456")))
  ∧ s3_calls (handle bucket repr iso router (online 30 "d")
                (POST_clients (JObj (registration "C456")))
                registered_C123).2 = s3_calls registered_C123.
Proof.
  assert (reads_only (GET_client "C123")) as H1 by exact I.
  assert (makes_no_s3_call (POST_clients (JObj (registration "C456"))))
    as H2 by exact I.
  split_and!; [exact H1 | | exact H2 |].
  - exact (proj1 (routes_frame bucket repr iso router (online 30 "d")
                    (GET_client "C123") registered_C123) H1).
  - exact (proj2 (routes_frame bucket repr iso router (online 30 "d")
                    (POST_clients (JObj (registration "C456")))
                    registered_C123) H2).
Defined.

Lemma upload_null_not_defaulted_witness :
  let data : gmap string json :=
    {[ "fileName" := JNull; "fileType" := JNull; "clientId" := JNull ]} in
  data !! "fileName" = Some JNull
  ∧ data !! "fileType" = Some JNull
  ∧ data !! "clientId" = Some JNull
  ∧ s3_calls (get_upload_url bucket repr (online 1 "2f1c") (JObj data) init).2
    = [generate_presigned_url "put_object" bucket "clients/None/2f1c_None"
         JNull 300].
Proof.
  intros data.
  assert (data !! "fileName" = Some JNull) as Hn by reflexivity.
  assert (data !! "fileType" = Some JNull) as Ht by reflexivity.
  assert (data !! "clientId" = Some JNull) as Hc by reflexivity.
  split_and!; [exact Hn | exact Ht | exact Hc |].
  exact (upload_null_not_defaulted bucket repr (online 1 "2f1c") data init
           Hn Ht Hc).
Defined.

Lemma body_not_object_witness :
  (∀ m, JArr [] ≠ JObj m)
  ∧ get_upload_url bucket repr (online 1 "2f1c") (JArr []) init
    = (Unhandled AttributeError, init)
  ∧ create_client (online 1 "2f1c") (JArr []) init
    = (Unhandled AttributeError, init).
Proof.
  assert (∀ m, JArr [] ≠ JObj m) as Hobj by discriminate.
  destruct (body_not_object bucket repr (online 1 "2f1c") (JArr []) init
              Hobj) as (H1 & H2).
  split_and!; [exact Hobj | exact H1 | exact H2].
Defined.

Lemma get_clients_agrees_with_get_client_witness :
  let cds := Client_to_dict bucket repr iso (db registered_C123)
               <$> clients (db registered_C123) in
  reachable bucket repr iso router registered_C123
  ∧ get_clients bucket repr iso registered_C123
    = (Json 200 (ClientList cds), registered_C123)
  ∧ length cds = 1%nat.
Proof.
  intros cds.
  assert (get_clients bucket repr iso registered_C123
          = (Json 200 (ClientList cds), registered_C123)) as Hget
    by (vm_compute; reflexivity).
  destruct (get_clients_agrees_with_get_client bucket repr iso router _ _
              registered_C123_reachable Hget) as (Hlen & _).
  split_and!; [exact registered_C123_reachable | exact Hget | exact Hlen].
Defined.

Lemma create_client_pictures_not_array_witness :
  let data := <["pictures" := JNull]> (registration "C9") in
  data !! "pictures" = Some JNull
  ∧ (create_client (online 12 "c") (JObj data) registered_C123).2
    = registered_C123.
Proof.
  intros data.
  assert (data !! "pictures" = Some JNull) as Hv by reflexivity.
  destruct (create_client_pictures_not_array (online 12 "c") data
              registered_C123 JNull Hv (or_introl eq_refl)) as (Hw & _).
  split; [exact Hv | exact Hw].
Defined.

Lemma create_client_pictures_round_trip_witness :
  reachable bucket repr iso router init
  ∧ create_client (online 10 "a") (JObj (registration "C123")) init
    = (Json 201 (Registered "Client registered" "C123" 1), registered_C123)
  ∧ url_segment "C123" = true
  ∧ ∃ cd,
      get_client bucket repr iso router "C123" registered_C123
      = (Json 200 (ClientOne cd), registered_C123)
      ∧ PictureDict.id <$> ClientDict.pictures cd = [1; 2]
      ∧ PictureDict.url <$> ClientDict.pictures cd
        = ["https://clientvault.s3.amazonaws.com/clients/C123/a_photo.png";
           "https://clientvault.s3.amazonaws.com/clients/C123/b_scan.png"].
Proof.
  assert (reachable bucket repr iso router init) as Hinit by apply reachable_init.
  assert (create_client (online 10 "a") (JObj (registration "C123")) init
          = (Json 201 (Registered "Client registered" "C123" 1),
             registered_C123)) as Hcreate by (vm_compute; reflexivity).
  destruct (create_client_pictures_round_trip bucket repr iso router _ _ _ _ _ _ _
              Hinit Hcreate eq_refl) as (pics & cd & Hpics & Hget & Hids & _).
  split_and!; [exact Hinit | exact Hcreate | reflexivity |].
  exists cd. injection Hpics as <-. injection Hget as <-.
  split_and!; [reflexivity | exact Hids | reflexivity].
Defined.

Lemma stored_client_never_changes_witness :
  let rs := [(online 11 "b", POST_clients (JObj (registration "C456")));
             (online 12 "c", DELETE_client "C456");
             (online 13 "d", POST_clients (JObj (registration "C456")))] in
  let c := hd (client_row 0 "" 0) (clients (db registered_C123)) in
  let c' := hd (client_row 0 "" 0)
              (clients (db (serve bucket repr iso router rs registered_C123).2)) in
  reachable bucket repr iso router registered_C123
  ∧ c ∈ clients (db registered_C123)
  ∧ c' ∈ clients (db (serve bucket repr iso router rs registered_C123).2)
  ∧ Client.id c' = Client.id c
  ∧ c' = c.
Proof.
  intros rs c c'.
  assert (c ∈ clients (db registered_C123)) as Hc by (vm_compute; left).
  assert (c' ∈ clients (db (serve bucket repr iso router rs registered_C123).2))
    as Hc' by (vm_compute; left).
  assert (Client.id c' = Client.id c) as Hid by (vm_compute; reflexivity).
  split_and!; [exact registered_C123_reachable | exact Hc | exact Hc'
              | exact Hid |].
  exact (stored_client_never_changes bucket repr iso router rs registered_C123 c c'
           registered_C123_reachable Hc Hc' Hid).
Defined.

Lemma registered_keys_deleted_witness :
  let out := delete_client bucket router (online 20 "b") "C123" registered_C123 in
  reachable bucket repr iso router init
  ∧ create_client (online 10 "a") (JObj (registration "C123")) init
    = (Json 201 (Registered "Client registered" "C123" 1), registered_C123)
  ∧ out.1 = Json 200 (Message "Client C123 deleted")
  ∧ s3_calls out.2
    = delete_object bucket
        <$> ["clients/C123/a_photo.png"; "clients/C123/b_scan.png"].
Proof.
  intros out.
  assert (reachable bucket repr iso router init) as Hinit by apply reachable_init.
  assert (create_client (online 10 "a") (JObj (registration "C123")) init
          = (Json 201 (Registered "Client registered" "C123" 1),
             registered_C123)) as Hcreate by (vm_compute; reflexivity).
  assert (delete_client bucket router (online 20 "b") "C123" registered_C123
          = (Json 200 (Message "Client C123 deleted"), out.2)) as Hdel
    by (vm_compute; reflexivity).
  destruct (registered_keys_deleted bucket repr iso router _ _ _ _ _ _ _ _ _ _
              Hinit Hcreate Hdel) as (pics & keys & _ & _ & _).
  split_and!; [exact Hinit | exact Hcreate | by vm_compute | by vm_compute].
Defined.

Lemma unroutable_client_stays_witness :
  let w := (create_client (online 11 "b") (JObj (registration "a/b"))
              registered_C123).2 in
  let rs := [(online 12 "c", DELETE_client "a/b");
             (online 13 "d", GET_client "a/b");
             (online 14 "e", DELETE_client "C123")] in
  let c := default (client_row 0 "" 0) (last (clients (db w))) in
  reachable bucket repr iso router w
  ∧ c ∈ clients (db w)
  ∧ Client.client_id c = "a/b"
  ∧ url_segment (Client.client_id c) = false
  ∧ Client.client_id <$> clients (db (serve bucket repr iso router rs w).2) = ["a/b"].
Proof.
  intros w rs c.
  assert (reachable bucket repr iso router w) as Hw.
  { apply (reachable_step bucket repr iso router (online 11 "b")
             (POST_clients (JObj (registration "a/b"))) registered_C123).
    apply registered_C123_reachable. }
  assert (c ∈ clients (db w)) as Hc by (vm_compute; right; left).
  assert (url_segment (Client.client_id c) = false) as Hseg by reflexivity.
  destruct (unroutable_client_stays bucket repr iso router rs w c Hw Hc Hseg)
    as (Hin & _ & _).
  split_and!; [exact Hw | exact Hc | reflexivity | exact Hseg | by vm_compute].
Defined.
